(** * RM690B0 AMOLED panel driver: command protocol, orientation, pixel format,
      addressing window and bring-up sequence.

    Shallow embedding of [src/esp_lcd_panel_rm690b0.cpp].  Integers of the
    source are carried by [Z]; the places where the source narrows a value
    (an [int] stored in a [uint8_t], a product computed in [size_t]) apply the
    wrap-around explicitly.  The transport ([tx_param], [tx_color]), the GPIO
    layer and [sleep_for] are external: the model records every call in a
    trace and takes the result of the n-th transport transaction from a
    script [io : nat -> esp_err_t]. *)

From Stdlib Require Import ZArith List Bool Lia.
From ExtLib Require Import Structures.Monad Structures.MonadState.
From ExtLib Require Import Data.Monads.StateMonad.
Import ListNotations.
Import MonadNotation.
Local Open Scope Z_scope.
Local Open Scope monad_scope.

(** ** Error codes

    [esp_err.h] of ESP-IDF: [esp_err_t] is an [int], [ESP_OK] is 0 and every
    other value is a failure. *)

Definition esp_err_t := Z.
Definition ESP_OK : esp_err_t := 0.
Definition ESP_FAIL : esp_err_t := -1.
Definition ESP_ERR_INVALID_ARG : esp_err_t := 0x102.

(** ** Machine integers of the ESP32 targets (ILP32) *)

(** Conversion to [uint8_t]: reduction modulo 2^8. *)
Definition to_uint8 (z : Z) : Z := z mod 2 ^ 8.

(** Conversion to [size_t], 32 bits wide on every ESP32 target. *)
Definition to_size_t (z : Z) : Z := z mod 2 ^ 32.

(** An [int] result, 32 bits two's complement.  Signed overflow is undefined
    in C++; the model wraps as the hardware does. *)
Definition to_int (z : Z) : Z := (z + 2 ^ 31) mod 2 ^ 32 - 2 ^ 31.

Definition INT_MIN : Z := - 2 ^ 31.
Definition INT_MAX : Z := 2 ^ 31 - 1.

(** ** Constants *)

Definition LOW : Z := 0.
Definition HIGH : Z := 1.

(** [soc/gpio_num.h]: the "not connected" pin. *)
Definition gpio_num_t := Z.
Definition GPIO_NUM_NC : gpio_num_t := -1.

(** Modelled from the spec: the command addresses of ESP-IDF's
    [esp_lcd_panel_commands.h], which the source includes and which is not
    part of it.  The specification names 0x10 (enter sleep), 0x11 (exit
    sleep), 0x29 (display on) and 0x35 (tearing effect on); the other
    addresses are the MIPI DCS values that header gives. *)
Definition LCD_CMD_SLPIN : Z := 0x10.
Definition LCD_CMD_SLPOUT : Z := 0x11.
Definition LCD_CMD_INVOFF : Z := 0x20.
Definition LCD_CMD_INVON : Z := 0x21.
Definition LCD_CMD_DISPOFF : Z := 0x28.
Definition LCD_CMD_DISPON : Z := 0x29.
Definition LCD_CMD_CASET : Z := 0x2A.
Definition LCD_CMD_RASET : Z := 0x2B.
Definition LCD_CMD_RAMWR : Z := 0x2C.
Definition LCD_CMD_TEON : Z := 0x35.
Definition LCD_CMD_MADCTL : Z := 0x36.
Definition LCD_CMD_COLMOD : Z := 0x3A.

Definition command_prefix : Z := 0x02000000.
Definition pixel_prefix : Z := 0x32000000.

Definition color_3_bits_per_pixel : Z := 0x33.  (* 0b00110011 *)
Definition grayscale_8_bits_per_pixel : Z := 0x11.  (* 0b00010001 *)
Definition color_8_bits_per_pixel : Z := 0x22.  (* 0b00100010 *)
Definition color_16_bits_per_pixel : Z := 0x55.  (* 0b01010101 *)
Definition color_18_bits_per_pixel : Z := 0x66.  (* 0b01100110 *)
Definition color_24_bits_per_pixel : Z := 0x77.  (* 0b01110111 *)

Definition lcd_cmd_unknown_0x2400 : Z := 0x24.
Definition lcd_cmd_unknown_0x5B00 : Z := 0x5B.
Definition lcd_cmd_write_display_brightness : Z := 0x51.
Definition lcd_cmd_set_disp_mode : Z := 0xC2.
Definition lcd_cmd_cmd_mode_switch : Z := 0xFE.
Definition lcd_cmd_interface_pixel_format_option : Z := 0x80.

Definition rotation_normal : Z := 0.
Definition rotation_mirror_y : Z := 0x10.
Definition rotation_swap_xy : Z := 0x20.
Definition rotation_minus90 : Z := 0x30.
Definition rotation_plus90 : Z := 0x60.

Definition rbg_element_order_rgb : Z := 0.
Definition rbg_element_order_bgr : Z := 0x08.  (* 0b00001000 *)

(** ** The device record *)

Inductive lcd_rgb_element_order_t : Set :=
| LCD_RGB_ELEMENT_ORDER_RGB
| LCD_RGB_ELEMENT_ORDER_BGR.

Definition rgb_order_eqb (a b : lcd_rgb_element_order_t) : bool :=
  match a, b with
  | LCD_RGB_ELEMENT_ORDER_RGB, LCD_RGB_ELEMENT_ORDER_RGB => true
  | LCD_RGB_ELEMENT_ORDER_BGR, LCD_RGB_ELEMENT_ORDER_BGR => true
  | _, _ => false
  end.

Record RM690B0Panel : Type := mkPanel {
  brightness : Z;
  reset_gpio_num : gpio_num_t;
  en_gpio_num : gpio_num_t;
  x_gap : Z;
  y_gap : Z;
  bits_per_pixel : Z;
  swap_xy : bool;
  mirror_x : bool;
  mirror_y : bool;
  rgb_ele_order : lcd_rgb_element_order_t;
  grayscale : bool
}.

(** The record as [std::make_unique<RM690B0Panel>()] leaves it. *)
Definition default_panel : RM690B0Panel :=
  {| brightness := 0; reset_gpio_num := GPIO_NUM_NC; en_gpio_num := GPIO_NUM_NC;
     x_gap := 0; y_gap := 0; bits_per_pixel := 0;
     swap_xy := false; mirror_x := false; mirror_y := false;
     rgb_ele_order := LCD_RGB_ELEMENT_ORDER_RGB; grayscale := false |}.

Definition set_brightness_field (v : Z) (p : RM690B0Panel) : RM690B0Panel :=
  {| brightness := v; reset_gpio_num := reset_gpio_num p;
     en_gpio_num := en_gpio_num p; x_gap := x_gap p; y_gap := y_gap p;
     bits_per_pixel := bits_per_pixel p; swap_xy := swap_xy p;
     mirror_x := mirror_x p; mirror_y := mirror_y p;
     rgb_ele_order := rgb_ele_order p; grayscale := grayscale p |}.

Definition set_gap_fields (gx gy : Z) (p : RM690B0Panel) : RM690B0Panel :=
  {| brightness := brightness p; reset_gpio_num := reset_gpio_num p;
     en_gpio_num := en_gpio_num p; x_gap := gx; y_gap := gy;
     bits_per_pixel := bits_per_pixel p; swap_xy := swap_xy p;
     mirror_x := mirror_x p; mirror_y := mirror_y p;
     rgb_ele_order := rgb_ele_order p; grayscale := grayscale p |}.

Definition set_swap_xy_field (b : bool) (p : RM690B0Panel) : RM690B0Panel :=
  {| brightness := brightness p; reset_gpio_num := reset_gpio_num p;
     en_gpio_num := en_gpio_num p; x_gap := x_gap p; y_gap := y_gap p;
     bits_per_pixel := bits_per_pixel p; swap_xy := b;
     mirror_x := mirror_x p; mirror_y := mirror_y p;
     rgb_ele_order := rgb_ele_order p; grayscale := grayscale p |}.

Definition set_mirror_fields (mx my : bool) (p : RM690B0Panel) : RM690B0Panel :=
  {| brightness := brightness p; reset_gpio_num := reset_gpio_num p;
     en_gpio_num := en_gpio_num p; x_gap := x_gap p; y_gap := y_gap p;
     bits_per_pixel := bits_per_pixel p; swap_xy := swap_xy p;
     mirror_x := mx; mirror_y := my;
     rgb_ele_order := rgb_ele_order p; grayscale := grayscale p |}.

(** ** Command descriptors *)

Record LCDCmd : Type := mkLCDCmd {
  lcd_cmd : Z;          (* int32_t *)
  param : list Z;       (* std::vector<uint8_t> *)
  delay : Z             (* std::chrono::milliseconds *)
}.

(** The settle delay chosen by the [switch] of the constructor. *)
Definition settle_delay (command_addr : Z) : Z :=
  if command_addr =? LCD_CMD_SLPIN then 5
  else if command_addr =? LCD_CMD_SLPOUT then 120
  else if (command_addr =? LCD_CMD_DISPON) || (command_addr =? lcd_cmd_set_disp_mode)
  then 10
  else 0.

(** The constructor [LCDCmd(command_addr, param)]. *)
Definition new_LCDCmd (command_addr : Z) (prm : list Z) : LCDCmd :=
  {| lcd_cmd := command_prefix + Z.shiftl command_addr 8;
     param := prm;
     delay := settle_delay command_addr |}.

Definition default_init_cmds : list LCDCmd :=
  [ new_LCDCmd lcd_cmd_cmd_mode_switch [0x20];
    new_LCDCmd lcd_cmd_unknown_0x2400 [0x80];
    new_LCDCmd lcd_cmd_unknown_0x5B00 [0x2E];
    new_LCDCmd lcd_cmd_cmd_mode_switch [0x00];
    new_LCDCmd lcd_cmd_set_disp_mode [0x00];
    new_LCDCmd LCD_CMD_TEON [0x00];
    new_LCDCmd LCD_CMD_SLPOUT [];
    new_LCDCmd LCD_CMD_DISPON [] ].

(** ** Pixel format and scan direction *)

Definition get_pixel_format (p : RM690B0Panel) : Z :=
  if grayscale p && negb (bits_per_pixel p =? 8) then 0
  else if bits_per_pixel p =? 3 then color_3_bits_per_pixel
  else if bits_per_pixel p =? 8 then
    (if grayscale p then grayscale_8_bits_per_pixel else color_8_bits_per_pixel)
  else if bits_per_pixel p =? 16 then color_16_bits_per_pixel
  else if bits_per_pixel p =? 18 then color_18_bits_per_pixel
  else if bits_per_pixel p =? 24 then color_24_bits_per_pixel
  else 0.

Definition get_scan_direction (p : RM690B0Panel) : Z :=
  if swap_xy p then
    if mirror_x p then rotation_minus90
    else if mirror_y p then rotation_plus90
    else rotation_swap_xy
  else if mirror_y p then rotation_mirror_y
  else rotation_normal.

(** The parameter byte computed by [update_screen_orientation]. *)
Definition orientation_param (p : RM690B0Panel) : Z :=
  let element_order :=
    if rgb_order_eqb (rgb_ele_order p) LCD_RGB_ELEMENT_ORDER_RGB
    then rbg_element_order_rgb else rbg_element_order_bgr in
  Z.lor (get_scan_direction p) element_order.

(** ** The outside world: transport, GPIO and clock *)

Inductive Event : Type :=
| TxParam (cmd : Z) (prm : list Z)                 (* io->tx_param *)
| TxColor (cmd : Z) (color_data : Z) (len : Z)     (* io->tx_color *)
| SleepFor (ms : Z)                                (* std::this_thread::sleep_for *)
| GpioSetLevel (pin : gpio_num_t) (level : Z).     (* gpio_set_level *)

(** The device record behind the handle, the calls made so far, and the
    number of transport transactions among them. *)
Record World : Type := mkWorld {
  panel : RM690B0Panel;
  trace : list Event;
  ncalls : nat
}.

Definition emit (e : Event) (w : World) : World :=
  {| panel := panel w; trace := trace w ++ [e]; ncalls := ncalls w |}.

Definition transact (e : Event) (w : World) : World :=
  {| panel := panel w; trace := trace w ++ [e]; ncalls := S (ncalls w) |}.

Definition with_panel (f : RM690B0Panel -> RM690B0Panel) (w : World) : World :=
  {| panel := f (panel w); trace := trace w; ncalls := ncalls w |}.

Definition is_ok (r : esp_err_t) : bool := r =? ESP_OK.

Definition M : Type -> Type := state World.

(** [ESP_RETURN_ON_ERROR(x, ...)]: leave with the code of [x] unless it is
    [ESP_OK]. *)
Definition ESP_RETURN_ON_ERROR (x : M esp_err_t) (k : M esp_err_t) : M esp_err_t :=
  r <- x ;; if is_ok r then k else ret r.

Section Driver.

(** Result of the n-th transport transaction. *)
Variable io : nat -> esp_err_t.

Definition panel_cast : M RM690B0Panel := w <- get ;; ret (panel w).

Definition tx_param (cmd : Z) (prm : list Z) : M esp_err_t :=
  w <- get ;; put (transact (TxParam cmd prm) w) ;; ret (io (ncalls w)).

Definition tx_color (cmd : Z) (color_data : Z) (len : Z) : M esp_err_t :=
  w <- get ;; put (transact (TxColor cmd color_data len) w) ;; ret (io (ncalls w)).

Definition sleep_for (ms : Z) : M unit := modify (emit (SleepFor ms)) ;; ret tt.

Definition gpio_set_level (pin : gpio_num_t) (level : Z) : M unit :=
  modify (emit (GpioSetLevel pin level)) ;; ret tt.

Definition send_command (c : LCDCmd) : M esp_err_t :=
  r <- tx_param (lcd_cmd c) (param c) ;;
  sleep_for (delay c) ;;
  ret r.

(** The overload taking a command address. *)
Definition send_command_addr (command_addr : Z) (prm : list Z) : M esp_err_t :=
  send_command (new_LCDCmd command_addr prm).

Fixpoint send_commands (cmds : list LCDCmd) : M esp_err_t :=
  match cmds with
  | [] => ret ESP_OK
  | c :: rest => ESP_RETURN_ON_ERROR (send_command c) (send_commands rest)
  end.

Definition update_screen_orientation : M esp_err_t :=
  p <- panel_cast ;;
  send_command_addr LCD_CMD_MADCTL [orientation_param p].

Definition esp_lcd_panel_rm690b0_get_brightness : M Z :=
  p <- panel_cast ;; ret (brightness p).

Definition esp_lcd_panel_rm690b0_set_brightness (b : Z) : M esp_err_t :=
  modify (with_panel (set_brightness_field b)) ;;
  send_command_addr lcd_cmd_write_display_brightness [b].

Definition swap_rgb565_bytes : Z := 0x10.  (* 0b00010000 *)

Definition init : M esp_err_t :=
  p <- panel_cast ;;
  (if negb (en_gpio_num p =? GPIO_NUM_NC)
   then gpio_set_level (en_gpio_num p) HIGH ;; sleep_for 25
   else ret tt) ;;
  ESP_RETURN_ON_ERROR (send_commands default_init_cmds)
    (update_screen_orientation ;;
     let pixel_format := get_pixel_format p in
     if pixel_format =? 0 then ret ESP_ERR_INVALID_ARG
     else
       ESP_RETURN_ON_ERROR (send_command_addr LCD_CMD_COLMOD [pixel_format])
         ((if bits_per_pixel p =? 16
           then send_command_addr lcd_cmd_interface_pixel_format_option
                  [swap_rgb565_bytes] ;; ret tt
           else ret tt) ;;
          ESP_RETURN_ON_ERROR (esp_lcd_panel_rm690b0_set_brightness 0xFF)
            (ret ESP_OK))).

Definition reset : M esp_err_t :=
  p <- panel_cast ;;
  gpio_set_level (reset_gpio_num p) HIGH ;; sleep_for 300 ;;
  gpio_set_level (reset_gpio_num p) LOW ;; sleep_for 300 ;;
  gpio_set_level (reset_gpio_num p) HIGH ;; sleep_for 300 ;;
  ret ESP_OK.

(** The two bytes [v >> 8 & 0xFF] and [v & 0xFF], each cast to [uint8_t]. *)
Definition high_low (v : Z) : list Z :=
  [ to_uint8 (Z.land (Z.shiftr v 8) 0xFF); to_uint8 (Z.land v 0xFF) ].

(** The vector [cmds] of [draw_bitmap], from the adjusted coordinates. *)
Definition window_cmds (x_start y_start x_end y_end : Z) : list LCDCmd :=
  [ new_LCDCmd LCD_CMD_CASET (high_low x_start ++ high_low x_end);
    new_LCDCmd LCD_CMD_RASET (high_low y_start ++ high_low y_end);
    new_LCDCmd LCD_CMD_RAMWR [] ].

Definition bits_per_byte : Z := 8.

Definition draw_bitmap (x_start y_start x_end y_end : Z) (color_data : Z)
  : M esp_err_t :=
  p <- panel_cast ;;
  let x_start := to_int (x_start + x_gap p) in
  let x_end := to_int (x_end + to_int (x_gap p - 1)) in
  let y_start := to_int (y_start + y_gap p) in
  let y_end := to_int (y_end + to_int (y_gap p - 1)) in
  ESP_RETURN_ON_ERROR (send_commands (window_cmds x_start y_start x_end y_end))
    (let area_size :=
       to_size_t (to_int (to_int (to_int (x_end - x_start) + 1)
                          * to_int (to_int (y_end - y_start) + 1))) in
     let cmd := pixel_prefix + Z.shiftl LCD_CMD_RAMWR 8 in
     tx_color cmd color_data
       (to_size_t (area_size * bits_per_pixel p) / bits_per_byte)).

Definition invert_color (invert_color_data : bool) : M esp_err_t :=
  send_command_addr (if invert_color_data then LCD_CMD_INVON else LCD_CMD_INVOFF) [].

Definition panel_swap_xy (swap_axes : bool) : M esp_err_t :=
  modify (with_panel (set_swap_xy_field swap_axes)) ;;
  update_screen_orientation.

Definition mirror (mx my : bool) : M esp_err_t :=
  modify (with_panel (set_mirror_fields mx my)) ;;
  update_screen_orientation.

Definition set_gap (gx gy : Z) : M esp_err_t :=
  modify (with_panel (set_gap_fields (to_uint8 gx) (to_uint8 gy))) ;;
  ret ESP_OK.

Definition disp_on_off (on_off : bool) : M esp_err_t :=
  send_command_addr (if on_off then LCD_CMD_DISPON else LCD_CMD_DISPOFF) [].

Definition sleep (sleep_flag : bool) : M esp_err_t :=
  send_command_addr (if sleep_flag then LCD_CMD_SLPIN else LCD_CMD_SLPOUT) [].

End Driver.

(** ** Reading a trace *)

(** The transport transactions of a trace, in order. *)
Definition is_tx (e : Event) : bool :=
  match e with
  | TxParam _ _ | TxColor _ _ _ => true
  | _ => false
  end.

Definition is_tx_color (e : Event) : bool :=
  match e with
  | TxColor _ _ _ => true
  | _ => false
  end.

Definition transactions (t : list Event) : list Event := filter is_tx t.

(** What [send_command] asks of the transport for a descriptor. *)
Definition wire (c : LCDCmd) : Event := TxParam (lcd_cmd c) (param c).

(** The calls [send_command] makes for a descriptor. *)
Definition command_events (c : LCDCmd) : list Event :=
  [ wire c; SleepFor (delay c) ].

(** A world freshly registered: nothing called yet. *)
Definition fresh_world (p : RM690B0Panel) : World :=
  {| panel := p; trace := []; ncalls := 0 |}.

(** A transport that accepts everything, and one that rejects exactly the
    transaction number [k]. *)
Definition io_ok : nat -> esp_err_t := fun _ => ESP_OK.
Definition io_fail_at (k : nat) : nat -> esp_err_t :=
  fun n => if Nat.eqb n k then ESP_FAIL else ESP_OK.
Definition io_fail_always : nat -> esp_err_t := fun _ => ESP_FAIL.

Definition panel16 : RM690B0Panel :=
  {| brightness := 0; reset_gpio_num := GPIO_NUM_NC; en_gpio_num := GPIO_NUM_NC;
     x_gap := 2; y_gap := 3; bits_per_pixel := 16;
     swap_xy := false; mirror_x := false; mirror_y := false;
     rgb_ele_order := LCD_RGB_ELEMENT_ORDER_RGB; grayscale := false |}.

(** The world after the calls [es] have been made on top of [w]. *)
Definition after (es : list Event) (w : World) : World :=
  {| panel := panel w;
     trace := trace w ++ es;
     ncalls := (ncalls w + length (transactions es))%nat |}.

(** First rejection at transaction [k] counted from [n]. *)
Definition first_failure (io : nat -> esp_err_t) (n k : nat) : Prop :=
  (forall j, (j < k)%nat -> io (n + j)%nat = ESP_OK) /\ io (n + k)%nat <> ESP_OK.

(** [k] consecutive transactions from [n] accepted. *)
Definition accepted (io : nat -> esp_err_t) (n k : nat) : Prop :=
  forall j, (j < k)%nat -> io (n + j)%nat = ESP_OK.

(** ** The specification's tables, in its own words *)

(** Tie-break table of the orientation engine (section 4.3). *)
Definition spec_rotation_code (swap mx my : bool) : Z :=
  match swap, mx, my with
  | false, _, false => 0x00
  | false, _, true => 0x10
  | true, true, _ => 0x30
  | true, false, true => 0x60
  | true, false, false => 0x20
  end.

Definition spec_channel_order_bit (o : lcd_rgb_element_order_t) : Z :=
  match o with
  | LCD_RGB_ELEMENT_ORDER_RGB => 0
  | LCD_RGB_ELEMENT_ORDER_BGR => 0x08
  end.

(** High and low byte of a 16-bit big-endian encoding (section 4.4). *)
Definition spec_high (v : Z) : Z := (v / 256) mod 256.
Definition spec_low (v : Z) : Z := v mod 256.
Definition spec_be16 (v : Z) : list Z := [spec_high v; spec_low v].

(** Payload byte count of section 4.4, with truncating division. *)
Definition spec_payload (x_start y_start x_end y_end bpp : Z) : Z :=
  Z.quot ((x_end - x_start) * (y_end - y_start) * bpp) 8.

(** The window commands of section 4.4 for gaps [gx], [gy], each followed
    by its (zero) settle delay. *)
Definition spec_window_events (gx gy x_start y_start x_end y_end : Z) : list Event :=
  [ TxParam 0x02002A00 (spec_be16 (x_start + gx) ++ spec_be16 (x_end + gx - 1));
    SleepFor 0;
    TxParam 0x02002B00 (spec_be16 (y_start + gy) ++ spec_be16 (y_end + gy - 1));
    SleepFor 0;
    TxParam 0x02002C00 [];
    SleepFor 0 ].

(** The calls of a complete draw as section 4.4 describes them. *)
Definition spec_draw_events (p : RM690B0Panel)
    (x_start y_start x_end y_end color_data : Z) : list Event :=
  spec_window_events (x_gap p) (y_gap p) x_start y_start x_end y_end
  ++ [ TxColor 0x32002C00 color_data
         (spec_payload x_start y_start x_end y_end (bits_per_pixel p)) ].

(** The payload byte count as the 32-bit [size_t] computation gives it for
    any rectangle: the bit count reduced modulo 2^32, then divided by 8. *)
Definition spec_payload_mod (x_start y_start x_end y_end bpp : Z) : Z :=
  ((x_end - x_start) * (y_end - y_start) * bpp) mod 2 ^ 32 / 8.

(** The calls of a complete draw with that byte count. *)
Definition spec_draw_events_mod (p : RM690B0Panel)
    (x_start y_start x_end y_end color_data : Z) : list Event :=
  spec_window_events (x_gap p) (y_gap p) x_start y_start x_end y_end
  ++ [ TxColor 0x32002C00 color_data
         (spec_payload_mod x_start y_start x_end y_end (bits_per_pixel p)) ].

(** The init sequence of section 4.5 as (address, parameters). *)
Definition spec_init_sequence : list (Z * list Z) :=
  [ (0xFE, [0x20]); (0x24, [0x80]); (0x5B, [0x2E]); (0xFE, [0x00]);
    (0xC2, [0x00]); (0x35, [0x00]); (0x11, []); (0x29, []) ].

(** ** Auxiliary notions for the proofs *)

(** Powering the controller through the enable pin, when there is one. *)
Definition power_up_events (p : RM690B0Panel) : list Event :=
  if negb (en_gpio_num p =? GPIO_NUM_NC)
  then [GpioSetLevel (en_gpio_num p) HIGH; SleepFor 25]
  else [].

(** What [init] does once the bring-up sequence has been accepted. *)
Definition init_configure io (p : RM690B0Panel) : M esp_err_t :=
  update_screen_orientation io ;;
  let pixel_format := get_pixel_format p in
  if pixel_format =? 0 then ret ESP_ERR_INVALID_ARG
  else
    ESP_RETURN_ON_ERROR (send_command_addr io LCD_CMD_COLMOD [pixel_format])
      ((if bits_per_pixel p =? 16
        then send_command_addr io lcd_cmd_interface_pixel_format_option
               [swap_rgb565_bytes] ;; ret tt
        else ret tt) ;;
       ESP_RETURN_ON_ERROR (esp_lcd_panel_rm690b0_set_brightness io 0xFF)
         (ret ESP_OK)).

(** The byte count [draw_bitmap] hands to [tx_color], from the coordinates
    as the caller gave them. *)
Definition payload_size (p : RM690B0Panel) (x_start y_start x_end y_end : Z) : Z :=
  let xs := to_int (x_start + x_gap p) in
  let xe := to_int (x_end + to_int (x_gap p - 1)) in
  let ys := to_int (y_start + y_gap p) in
  let ye := to_int (y_end + to_int (y_gap p - 1)) in
  to_size_t
    (to_size_t (to_int (to_int (to_int (xe - xs) + 1) * to_int (to_int (ye - ys) + 1)))
     * bits_per_pixel p) / bits_per_byte.

(** The window commands [draw_bitmap] builds, from the coordinates as the
    caller gave them. *)
Definition draw_window_cmds (p : RM690B0Panel) (x_start y_start x_end y_end : Z)
  : list LCDCmd :=
  window_cmds (to_int (x_start + x_gap p)) (to_int (y_start + y_gap p))
    (to_int (x_end + to_int (x_gap p - 1))) (to_int (y_end + to_int (y_gap p - 1))).

(** Calls are only ever added to the trace. *)
Definition appends {A} (m : M A) : Prop :=
  forall w, exists es, trace (snd (runState m w)) = trace w ++ es.

(** Equality up to a multiple of 2^32. *)
Definition congr32 (a b : Z) : Prop := exists q, a = b + q * 2 ^ 32.

(** The pixel payloads handed to the transport. *)
Definition payloads (t : list Event) : list Event := filter is_tx_color t.

(** Time spent in [sleep_for] along a trace, in milliseconds. *)
Definition sleep_total (t : list Event) : Z :=
  fold_right (fun e acc => match e with SleepFor ms => ms + acc | _ => acc end) 0 t.

(** ** Registration and teardown

    [esp_lcd_new_panel_rm690b0], [init_out_pin], [reset_all_pins] and [del]
    never use the transport.  They call [gpio_config] and [gpio_reset_pin],
    whose return codes the source inspects: the calls are logged and the
    result of the n-th one is taken from a script [gpio : nat -> esp_err_t]. *)

Inductive GpioCall : Type :=
| GpioConfig (pin_bit_mask : Z)      (* gpio_config, mode GPIO_MODE_OUTPUT *)
| GpioResetPin (pin : gpio_num_t).   (* gpio_reset_pin *)

Record Pins : Type := mkPins {
  gpio_log : list GpioCall;
  gpio_ncalls : nat
}.

Definition no_pins : Pins := {| gpio_log := []; gpio_ncalls := 0 |}.

Definition G : Type -> Type := state Pins.

(** The vendor block of [include/esp_lcd_rm690b0.h]. *)
Module vendor.
Record rm960b0_vendor_config_t : Type := mk {
  en_gpio_num : gpio_num_t;
  grayscale : bool
}.
End vendor.

(** The fields of ESP-IDF's [esp_lcd_panel_dev_config_t] that the source
    reads; [vendor_config] is a pointer that may be null. *)
Module dev.
Record esp_lcd_panel_dev_config_t : Type := mk {
  reset_gpio_num : Z;
  rgb_ele_order : lcd_rgb_element_order_t;
  bits_per_pixel : Z;
  vendor_config : option vendor.rm960b0_vendor_config_t
}.
End dev.

(** The record [esp_lcd_new_panel_rm690b0] populates before it configures
    the pins. *)
Definition populate (c : dev.esp_lcd_panel_dev_config_t) : RM690B0Panel :=
  {| brightness := 0;
     reset_gpio_num :=
       if 0 <=? dev.reset_gpio_num c then dev.reset_gpio_num c else GPIO_NUM_NC;
     en_gpio_num :=
       match dev.vendor_config c with
       | None => GPIO_NUM_NC
       | Some v => vendor.en_gpio_num v
       end;
     x_gap := 0;
     y_gap := 0;
     bits_per_pixel := to_uint8 (dev.bits_per_pixel c);
     swap_xy := false;
     mirror_x := false;
     mirror_y := false;
     rgb_ele_order := dev.rgb_ele_order c;
     grayscale :=
       match dev.vendor_config c with
       | None => false
       | Some v => vendor.grayscale v
       end |}.

Section Gpio.

(** Result of the n-th GPIO call. *)
Variable gpio : nat -> esp_err_t.

Definition gpio_call (c : GpioCall) : G esp_err_t :=
  s <- get ;;
  put {| gpio_log := gpio_log s ++ [c]; gpio_ncalls := S (gpio_ncalls s) |} ;;
  ret (gpio (gpio_ncalls s)).

Definition gpio_reset_pin (pin : gpio_num_t) : G esp_err_t :=
  gpio_call (GpioResetPin pin).

(** [gpio_config] for the one-pin output configuration of [init_out_pin]. *)
Definition gpio_config (pin_bit_mask : Z) : G esp_err_t :=
  gpio_call (GpioConfig pin_bit_mask).

(** The overload [reset(pin_num, pin_name)]. *)
Definition reset_pin (pin_num : gpio_num_t) : G esp_err_t :=
  if pin_num =? GPIO_NUM_NC then ret ESP_OK
  else gpio_reset_pin pin_num.

Definition reset_all_pins (p : RM690B0Panel) : G unit :=
  reset_pin (reset_gpio_num p) ;;
  reset_pin (en_gpio_num p) ;;
  ret tt.

Definition del (p : RM690B0Panel) : G esp_err_t :=
  reset_all_pins p ;; ret ESP_OK.

Definition init_out_pin (p : RM690B0Panel) (pin : gpio_num_t) : G esp_err_t :=
  if pin =? GPIO_NUM_NC then ret ESP_OK
  else
    r <- gpio_config (Z.shiftl 1 pin) ;;
    (if negb (is_ok r) then reset_all_pins p else ret tt) ;;
    ret r.

(** [io], [panel_dev_config] and [ret_panel] are pointers: [io_present] and
    [ret_panel_present] say whether they are non-null, a null
    [panel_dev_config] is [None].  The handle stored through [ret_panel] is
    the second component of the result. *)
Definition esp_lcd_new_panel_rm690b0 (io_present : bool)
    (panel_dev_config : option dev.esp_lcd_panel_dev_config_t)
    (ret_panel_present : bool) : G (esp_err_t * option RM690B0Panel) :=
  if negb io_present then ret (ESP_ERR_INVALID_ARG, None)
  else
    match panel_dev_config with
    | None => ret (ESP_ERR_INVALID_ARG, None)
    | Some c =>
        if negb ret_panel_present then ret (ESP_ERR_INVALID_ARG, None)
        else
          let rm690b0 := populate c in
          r1 <- init_out_pin rm690b0 (reset_gpio_num rm690b0) ;;
          if is_ok r1 then
            r2 <- init_out_pin rm690b0 (en_gpio_num rm690b0) ;;
            if is_ok r2 then ret (ESP_OK, Some rm690b0)
            else ret (r2, None)
          else ret (r1, None)
    end.

End Gpio.

(** The GPIO calls [cs] made on top of [s]. *)
Definition pins_after (cs : list GpioCall) (s : Pins) : Pins :=
  {| gpio_log := gpio_log s ++ cs;
     gpio_ncalls := (gpio_ncalls s + length cs)%nat |}.

(** The release calls of [reset_all_pins]: connected pins only. *)
Definition release_calls (p : RM690B0Panel) : list GpioCall :=
  (if reset_gpio_num p =? GPIO_NUM_NC then [] else [GpioResetPin (reset_gpio_num p)])
  ++ (if en_gpio_num p =? GPIO_NUM_NC then [] else [GpioResetPin (en_gpio_num p)]).

(** The calls of the configuration steps of [init]. *)
Definition madctl_events (p : RM690B0Panel) : list Event :=
  command_events (new_LCDCmd LCD_CMD_MADCTL [orientation_param p]).

Definition colmod_events (p : RM690B0Panel) : list Event :=
  command_events (new_LCDCmd LCD_CMD_COLMOD [get_pixel_format p]).

Definition byte_swap_events (p : RM690B0Panel) : list Event :=
  if bits_per_pixel p =? 16
  then command_events (new_LCDCmd lcd_cmd_interface_pixel_format_option [swap_rgb565_bytes])
  else [].

Definition brightness_events (b : Z) : list Event :=
  command_events (new_LCDCmd lcd_cmd_write_display_brightness [b]).

(** Number of transactions of the byte-swap step: one at 16 bits per pixel. *)
Definition byte_swap_calls (p : RM690B0Panel) : nat :=
  if Z.eqb (bits_per_pixel p) 16 then 1%nat else 0%nat.

(** The configuration calls of [esp_lcd_new_panel_rm690b0]: connected pins
    only, the reset pin first. *)
Definition config_calls (p : RM690B0Panel) : list GpioCall :=
  (if reset_gpio_num p =? GPIO_NUM_NC then []
   else [GpioConfig (Z.shiftl 1 (reset_gpio_num p))])
  ++ (if en_gpio_num p =? GPIO_NUM_NC then []
      else [GpioConfig (Z.shiftl 1 (en_gpio_num p))]).

(** A record at 3 bits per pixel. *)
Definition panel3 : RM690B0Panel :=
  {| brightness := 0; reset_gpio_num := GPIO_NUM_NC; en_gpio_num := GPIO_NUM_NC;
     x_gap := 0; y_gap := 0; bits_per_pixel := 3;
     swap_xy := false; mirror_x := false; mirror_y := false;
     rgb_ele_order := LCD_RGB_ELEMENT_ORDER_RGB; grayscale := false |}.

(** A configuration with reset pin 4 and enable pin 5, 16 bits per pixel. *)
Definition config16 : dev.esp_lcd_panel_dev_config_t :=
  dev.mk 4 LCD_RGB_ELEMENT_ORDER_RGB 16 (Some (vendor.mk 5 false)).

Create HintDb trace_db.
Create HintDb wrap_db.

(** * Properties *)

(** ** Running the primitives *)

Lemma after_nil w : after [] w = w.
Proof.
  destruct w as [p t n]. unfold after. simpl.
  rewrite app_nil_r, Nat.add_0_r. reflexivity.
Qed.

Lemma transactions_app t1 t2 :
  transactions (t1 ++ t2) = transactions t1 ++ transactions t2.
Proof. unfold transactions. apply filter_app. Qed.

Lemma after_after es1 es2 w : after es2 (after es1 w) = after (es1 ++ es2) w.
Proof.
  unfold after. simpl. rewrite transactions_app, length_app, <- app_assoc.
  f_equal. lia.
Qed.

Lemma run_send_command io c w :
  runState (send_command io c) w = (io (ncalls w), after (command_events c) w).
Proof.
  unfold after, command_events, wire. simpl. unfold emit, transact. simpl.
  rewrite <- app_assoc. simpl.
  replace (S (ncalls w)) with (ncalls w + 1)%nat by lia. reflexivity.
Qed.

Lemma run_bind {A B} (m : M A) (f : A -> M B) w :
  runState (x <- m ;; f x) w =
  (let (a, w') := runState m w in runState (f a) w').
Proof. reflexivity. Qed.

Lemma run_return_on_error (x k : M esp_err_t) w :
  runState (ESP_RETURN_ON_ERROR x k) w =
  (let (r, w') := runState x w in
   if is_ok r then runState k w' else (r, w')).
Proof.
  unfold ESP_RETURN_ON_ERROR. simpl.
  destruct (runState x w) as [r w']. destruct (is_ok r); reflexivity.
Qed.

Lemma is_ok_true r : is_ok r = true <-> r = ESP_OK.
Proof. unfold is_ok. apply Z.eqb_eq. Qed.

Lemma is_ok_false r : is_ok r = false <-> r <> ESP_OK.
Proof. unfold is_ok. apply Z.eqb_neq. Qed.

Lemma run_send_commands_cons io c rest w :
  runState (send_commands io (c :: rest)) w =
  if is_ok (io (ncalls w))
  then runState (send_commands io rest) (after (command_events c) w)
  else (io (ncalls w), after (command_events c) w).
Proof.
  cbn [send_commands]. rewrite run_return_on_error, run_send_command.
  reflexivity.
Qed.

Lemma length_transactions_command_events cmds :
  length (transactions (flat_map command_events cmds)) = length cmds.
Proof.
  induction cmds as [|c cmds IH]; simpl; [reflexivity|].
  now rewrite <- IH.
Qed.

(** Every command accepted: the whole list goes out. *)
Lemma send_commands_accepted io cmds :
  forall w, accepted io (ncalls w) (length cmds) ->
    runState (send_commands io cmds) w =
    (ESP_OK, after (flat_map command_events cmds) w).
Proof.
  induction cmds as [|c rest IH]; intros w Hok.
  - simpl. now rewrite after_nil.
  - rewrite run_send_commands_cons.
    assert (H0 : io (ncalls w) = ESP_OK).
    { specialize (Hok 0%nat). rewrite Nat.add_0_r in Hok. apply Hok. simpl. lia. }
    rewrite (proj2 (is_ok_true _) H0).
    rewrite IH.
    + rewrite after_after. reflexivity.
    + intros j Hj. simpl.
      replace (ncalls w + 1 + j)%nat with (ncalls w + S j)%nat by lia.
      apply Hok. simpl. lia.
Qed.

(** First rejection at position [k]: the code of that rejection comes back
    and exactly the commands up to it have gone out. *)
Lemma send_commands_first_failure io cmds :
  forall k w, (k < length cmds)%nat -> first_failure io (ncalls w) k ->
    runState (send_commands io cmds) w =
    (io (ncalls w + k)%nat,
     after (flat_map command_events (firstn (S k) cmds)) w).
Proof.
  induction cmds as [|c rest IH]; intros k w Hk [Hbefore Hat].
  - simpl in Hk. lia.
  - rewrite run_send_commands_cons. destruct k as [|k].
    + rewrite Nat.add_0_r in *.
      rewrite (proj2 (is_ok_false _) Hat). reflexivity.
    + assert (H0 : io (ncalls w) = ESP_OK).
      { specialize (Hbefore 0%nat). rewrite Nat.add_0_r in Hbefore.
        apply Hbefore. lia. }
      rewrite (proj2 (is_ok_true _) H0).
      rewrite (IH k).
      * rewrite after_after. simpl ncalls.
        replace (ncalls w + 1 + k)%nat with (ncalls w + S k)%nat by lia.
        reflexivity.
      * simpl in Hk. lia.
      * simpl ncalls. split.
        -- intros j Hj.
           replace (ncalls w + 1 + j)%nat with (ncalls w + S j)%nat by lia.
           apply Hbefore. lia.
        -- replace (ncalls w + 1 + k)%nat with (ncalls w + S k)%nat by lia.
           exact Hat.
Qed.

(** ** Machine arithmetic *)

Lemma land_255 v : Z.land v 0xFF = v mod 256.
Proof. change 0xFF with (Z.ones 8). rewrite Z.land_ones by lia. reflexivity. Qed.

Lemma shiftr_8 v : Z.shiftr v 8 = v / 256.
Proof. rewrite Z.shiftr_div_pow2 by lia. reflexivity. Qed.

Lemma shiftl_8 v : Z.shiftl v 8 = v * 256.
Proof. rewrite Z.shiftl_mul_pow2 by lia. reflexivity. Qed.

Lemma to_uint8_mod v : to_uint8 (v mod 256) = v mod 256.
Proof. unfold to_uint8. change (2 ^ 8) with 256. apply Z.mod_mod. lia. Qed.

(** An [int] result differs from the exact one by a multiple of 2^32. *)
Lemma to_int_congr z : exists q, to_int z = z + q * 2 ^ 32.
Proof.
  unfold to_int. exists (- ((z + 2 ^ 31) / 2 ^ 32)).
  pose proof (Z.div_mod (z + 2 ^ 31) (2 ^ 32)) as H. lia.
Qed.

Lemma to_int_id z : INT_MIN <= z <= INT_MAX -> to_int z = z.
Proof.
  unfold to_int, INT_MIN, INT_MAX. intros H.
  rewrite Z.mod_small; lia.
Qed.

Lemma to_size_t_to_int z : to_size_t (to_int z) = to_size_t z.
Proof.
  destruct (to_int_congr z) as [q ->]. unfold to_size_t.
  apply Z_mod_plus_full.
Qed.

(** ** Command codec *)

Lemma new_LCDCmd_lcd_cmd a prm :
  lcd_cmd (new_LCDCmd a prm) = 0x02000000 + a * 256.
Proof. unfold new_LCDCmd. cbn [lcd_cmd]. now rewrite shiftl_8. Qed.

(** C3. For a one-byte address [a] the wire identifier of the descriptor is
    the prefix 0x02000000 plus [a] shifted left by 8 bits: the four bytes of
    the word are 0x02, 0x00, [a], 0x00.  The settle delay is 5 ms for 0x10,
    120 ms for 0x11, 10 ms for 0x29 and 0xC2 and 0 ms otherwise; it is the
    same whatever the parameters, and it is the time [send_command] sleeps
    after the transaction whoever calls it. *)
Theorem LCDCmd_identifier_and_delay (a : Z) (prm : list Z) :
  0 <= a < 256 ->
  lcd_cmd (new_LCDCmd a prm) = 0x02000000 + Z.shiftl a 8
  /\ (Z.land (Z.shiftr (lcd_cmd (new_LCDCmd a prm)) 24) 0xFF = 0x02
      /\ Z.land (Z.shiftr (lcd_cmd (new_LCDCmd a prm)) 16) 0xFF = 0x00
      /\ Z.land (Z.shiftr (lcd_cmd (new_LCDCmd a prm)) 8) 0xFF = a
      /\ Z.land (lcd_cmd (new_LCDCmd a prm)) 0xFF = 0x00)
  /\ INT_MIN <= lcd_cmd (new_LCDCmd a prm) <= INT_MAX
  /\ param (new_LCDCmd a prm) = prm
  /\ delay (new_LCDCmd a prm) =
       match a with
       | 0x10 => 5
       | 0x11 => 120
       | 0x29 => 10
       | 0xC2 => 10
       | _ => 0
       end
  /\ (forall prm', delay (new_LCDCmd a prm') = delay (new_LCDCmd a prm))
  /\ (forall io w,
        trace (snd (runState (send_command_addr io a prm) w)) =
        trace w ++ [TxParam (0x02000000 + Z.shiftl a 8) prm;
                    SleepFor (delay (new_LCDCmd a prm))]).
Proof.
  intros Ha.
  assert (Hcmd : lcd_cmd (new_LCDCmd a prm) = 0x02000000 + a * 256)
    by apply new_LCDCmd_lcd_cmd.
  split; [reflexivity|].
  split.
  { rewrite Hcmd, !land_255, !Z.shiftr_div_pow2 by lia.
    change (2 ^ 24) with 16777216. change (2 ^ 16) with 65536.
    change (2 ^ 8) with 256.
    repeat split.
    - replace ((33554432 + a * 256) / 16777216) with 2; [reflexivity|].
      apply Z.div_unique with (r := a * 256); lia.
    - replace ((33554432 + a * 256) / 65536) with 512; [reflexivity|].
      apply Z.div_unique with (r := a * 256); lia.
    - replace ((33554432 + a * 256) / 256) with (131072 + a).
      + replace (131072 + a) with (a + 512 * 256) by lia.
        rewrite Z_mod_plus_full. apply Z.mod_small. lia.
      + apply Z.div_unique with (r := 0); lia.
    - replace (33554432 + a * 256) with (0 + (131072 + a) * 256) by lia.
      rewrite Z_mod_plus_full. reflexivity. }
  split.
  { rewrite Hcmd. unfold INT_MIN, INT_MAX. lia. }
  split; [reflexivity|].
  split.
  { cbn [new_LCDCmd delay]. unfold settle_delay.
    destruct (Z.eqb_spec a LCD_CMD_SLPIN) as [->|H1]; [reflexivity|].
    destruct (Z.eqb_spec a LCD_CMD_SLPOUT) as [->|H2]; [reflexivity|].
    destruct (Z.eqb_spec a LCD_CMD_DISPON) as [->|H3]; [reflexivity|].
    destruct (Z.eqb_spec a lcd_cmd_set_disp_mode) as [->|H4]; [reflexivity|].
    unfold LCD_CMD_SLPIN, LCD_CMD_SLPOUT, LCD_CMD_DISPON, lcd_cmd_set_disp_mode in *.
    cbn [orb].
    destruct a as [|q|q]; try reflexivity.
    do 8 (destruct q as [q|q|]; try reflexivity; try congruence). }
  split; [reflexivity|].
  intros io w. unfold send_command_addr. rewrite run_send_command.
  reflexivity.
Qed.

Lemma LCDCmd_identifier_and_delay_witness :
  0 <= 0x11 < 256 /\ lcd_cmd (new_LCDCmd 0x11 []) = 0x02001100
  /\ delay (new_LCDCmd 0x11 []) = 120.
Proof.
  split; [lia|].
  pose proof (LCDCmd_identifier_and_delay 0x11 [] ltac:(lia)) as H.
  split; [exact (proj1 H)|].
  exact (proj1 (proj2 (proj2 (proj2 (proj2 H))))).
Defined.

(** ** Pixel format *)

(** C2. The format byte is 0x33 for 3 bpp, 0x11 for 8 bpp grayscale, 0x22 for
    8 bpp colour, 0x55 for 16 bpp, 0x66 for 18 bpp, 0x77 for 24 bpp, and the
    sentinel 0 for any other depth and for grayscale at a depth other than 8;
    the byte is 0 only in those unsupported cases. *)
Theorem get_pixel_format_table (p : RM690B0Panel) :
  get_pixel_format p =
    (if grayscale p
     then match bits_per_pixel p with
          | 8 => 0x11
          | _ => 0
          end
     else match bits_per_pixel p with
          | 3 => 0x33
          | 8 => 0x22
          | 16 => 0x55
          | 18 => 0x66
          | 24 => 0x77
          | _ => 0
          end)
  /\ (get_pixel_format p = 0 <->
      ~ In (bits_per_pixel p) [3; 8; 16; 18; 24]
      \/ (grayscale p = true /\ bits_per_pixel p <> 8)).
Proof.
  destruct p as [b rg en gx gy bpp sw mx my ord gray].
  unfold get_pixel_format. cbn [grayscale bits_per_pixel].
  destruct (Z.eqb_spec bpp 8) as [->|H8].
  { destruct gray; cbn; (split; [reflexivity|]);
      (split; [discriminate | intros [H|[_ H]]; [exfalso; apply H; cbn; tauto | congruence]]). }
  destruct gray; cbn [andb negb].
  { split.
    - destruct bpp as [|q|q]; try reflexivity.
      do 4 (destruct q as [q|q|]; try reflexivity; try congruence).
    - split; [intros _; right; split; [reflexivity | assumption] | reflexivity]. }
  destruct (Z.eqb_spec bpp 3) as [->|H3].
  { split; [reflexivity|]. split; [discriminate|].
    intros [H|[H _]]; [exfalso; apply H; cbn; tauto | discriminate]. }
  destruct (Z.eqb_spec bpp 16) as [->|H16].
  { split; [reflexivity|]. split; [discriminate|].
    intros [H|[H _]]; [exfalso; apply H; cbn; tauto | discriminate]. }
  destruct (Z.eqb_spec bpp 18) as [->|H18].
  { split; [reflexivity|]. split; [discriminate|].
    intros [H|[H _]]; [exfalso; apply H; cbn; tauto | discriminate]. }
  destruct (Z.eqb_spec bpp 24) as [->|H24].
  { split; [reflexivity|]. split; [discriminate|].
    intros [H|[H _]]; [exfalso; apply H; cbn; tauto | discriminate]. }
  split.
  - destruct bpp as [|q|q]; try reflexivity.
    do 5 (destruct q as [q|q|]; try reflexivity; try congruence).
  - split; [|reflexivity]. intros _. left. cbn. intros H.
    repeat (destruct H as [H|H]; [congruence|]). exact H.
Qed.

(** ** Orientation *)

Lemma get_scan_direction_table p :
  get_scan_direction p = spec_rotation_code (swap_xy p) (mirror_x p) (mirror_y p).
Proof.
  unfold get_scan_direction, spec_rotation_code.
  destruct (swap_xy p), (mirror_x p), (mirror_y p); reflexivity.
Qed.

(** C1. Whatever the three orientation flags and the channel order, the
    "set addressing mode" command (0x36) carries one byte: the rotation code
    of the tie-break table ORed with 0 for RGB or 0x08 for BGR.  With swap
    and both mirrors requested the table gives 0x30 (mirror-x priority). *)
Theorem update_screen_orientation_byte io (w : World) :
  runState (update_screen_orientation io) w =
    (io (ncalls w),
     after [TxParam 0x02003600
              [Z.lor (spec_rotation_code (swap_xy (panel w)) (mirror_x (panel w))
                        (mirror_y (panel w)))
                     (spec_channel_order_bit (rgb_ele_order (panel w)))];
            SleepFor 0] w)
  /\ (swap_xy (panel w) = true -> mirror_x (panel w) = true ->
      orientation_param (panel w) =
        Z.lor 0x30 (spec_channel_order_bit (rgb_ele_order (panel w)))).
Proof.
  split.
  - unfold update_screen_orientation, send_command_addr.
    change (runState (p <- panel_cast ;; send_command io (new_LCDCmd LCD_CMD_MADCTL [orientation_param p])) w)
      with (runState (send_command io (new_LCDCmd LCD_CMD_MADCTL [orientation_param (panel w)])) w).
    rewrite run_send_command. unfold orientation_param.
    rewrite get_scan_direction_table.
    destruct (rgb_ele_order (panel w)); reflexivity.
  - intros Hs Hx. unfold orientation_param. rewrite get_scan_direction_table, Hs, Hx.
    destruct (mirror_y (panel w)), (rgb_ele_order (panel w)); reflexivity.
Qed.

Lemma update_screen_orientation_byte_witness :
  orientation_param
    (panel (fresh_world
              (set_mirror_fields true true
                 (set_swap_xy_field true default_panel)))) = 0x30.
Proof.
  exact (proj2 (update_screen_orientation_byte io_ok
                  (fresh_world
                     (set_mirror_fields true true
                        (set_swap_xy_field true default_panel))))
           eq_refl eq_refl).
Defined.

(** ** Brightness *)

(** C7. [set_brightness b] writes [b] into the cached field and then sends
    command 0x51 from the world that already holds [b]; the code returned is
    the transport's, and a following [get_brightness] yields [b] whether the
    transport accepted or rejected the send. *)
Theorem set_brightness_caches_unconditionally io (b : Z) (w : World) :
  runState (esp_lcd_panel_rm690b0_set_brightness io b) w =
    runState (send_command_addr io lcd_cmd_write_display_brightness [b])
      (with_panel (set_brightness_field b) w)
  /\ runState (esp_lcd_panel_rm690b0_set_brightness io b) w =
       (io (ncalls w),
        after [TxParam 0x02005100 [b]; SleepFor 0]
          (with_panel (set_brightness_field b) w))
  /\ runState (esp_lcd_panel_rm690b0_set_brightness io b ;;
               esp_lcd_panel_rm690b0_get_brightness) w =
       (b, after [TxParam 0x02005100 [b]; SleepFor 0]
             (with_panel (set_brightness_field b) w))
  /\ fst (runState (esp_lcd_panel_rm690b0_set_brightness io_fail_always 200 ;;
                    esp_lcd_panel_rm690b0_get_brightness) w) = 200.
Proof.
  assert (Hrun : runState (esp_lcd_panel_rm690b0_set_brightness io b) w =
                 runState (send_command_addr io lcd_cmd_write_display_brightness [b])
                   (with_panel (set_brightness_field b) w)) by reflexivity.
  split; [exact Hrun|].
  unfold send_command_addr in Hrun. rewrite run_send_command in Hrun.
  split; [exact Hrun|].
  split.
  - rewrite run_bind, Hrun. reflexivity.
  - reflexivity.
Qed.

(** ** Bring-up *)

Lemma transactions_power_up p : transactions (power_up_events p) = [].
Proof. unfold power_up_events. destruct (negb _); reflexivity. Qed.

Lemma run_init io w :
  runState (init io) w =
  (let (r, w') := runState (send_commands io default_init_cmds)
                    (after (power_up_events (panel w)) w) in
   if is_ok r then runState (init_configure io (panel w)) w' else (r, w')).
Proof.
  assert (Hpow : forall w0,
    runState (if negb (en_gpio_num (panel w) =? GPIO_NUM_NC)
              then gpio_set_level (en_gpio_num (panel w)) HIGH ;; sleep_for 25
              else ret tt) w0 = (tt, after (power_up_events (panel w)) w0)).
  { intros w0. unfold power_up_events.
    destruct (negb (en_gpio_num (panel w) =? GPIO_NUM_NC)).
    - unfold after. simpl. unfold emit. simpl.
      rewrite <- app_assoc, Nat.add_0_r. reflexivity.
    - now rewrite after_nil. }
  unfold init.
  cbn [bind Monad_state runState panel_cast get MonadState_state ret].
  rewrite Hpow. cbn [snd fst].
  rewrite run_return_on_error. reflexivity.
Qed.

Lemma ncalls_after_power_up p w : ncalls (after (power_up_events p) w) = ncalls w.
Proof. unfold after. cbn [ncalls]. rewrite transactions_power_up. simpl. lia. Qed.

Lemma transactions_command_events cmds :
  transactions (flat_map command_events cmds) = map wire cmds.
Proof.
  induction cmds as [|c cmds IH]; [reflexivity|].
  cbn. now rewrite <- IH.
Qed.

Lemma length_default_init_cmds : length default_init_cmds = 8%nat.
Proof. reflexivity. Qed.

(** Whatever the transport does, [send_commands] sends an initial segment of
    its list, and the whole list when it reports success. *)
Lemma send_commands_prefix io cmds :
  forall w, exists m,
    (m <= length cmds)%nat
    /\ snd (runState (send_commands io cmds) w) =
       after (flat_map command_events (firstn m cmds)) w
    /\ (is_ok (fst (runState (send_commands io cmds) w)) = true ->
        m = length cmds).
Proof.
  induction cmds as [|c rest IH]; intros w.
  - exists 0%nat. cbn. rewrite after_nil. auto.
  - rewrite run_send_commands_cons.
    destruct (is_ok (io (ncalls w))) eqn:E.
    + destruct (IH (after (command_events c) w)) as (m & Hm & Hsnd & Hok).
      exists (S m). split; [simpl; lia|]. split.
      * rewrite Hsnd, after_after. reflexivity.
      * intros H. simpl. f_equal. auto.
    + exists 1%nat. split; [simpl; lia|]. split.
      * reflexivity.
      * cbn [fst]. rewrite E. discriminate.
Qed.

Lemma appends_ret {A} (a : A) : appends (ret a).
Proof. intros w. exists []. cbn. now rewrite app_nil_r. Qed.

Lemma appends_bind {A B} (m : M A) (f : A -> M B) :
  appends m -> (forall a, appends (f a)) -> appends (x <- m ;; f x).
Proof.
  intros Hm Hf w. rewrite run_bind.
  destruct (Hm w) as [es1 H1].
  destruct (runState m w) as [a w'].
  destruct (Hf a w') as [es2 H2].
  exists (es1 ++ es2). cbn [snd] in H1. rewrite H2, H1. apply eq_sym, app_assoc.
Qed.

Lemma appends_send_command io c : appends (send_command io c).
Proof. intros w. rewrite run_send_command. now exists (command_events c). Qed.

Lemma appends_return_on_error (x k : M esp_err_t) :
  appends x -> appends k -> appends (ESP_RETURN_ON_ERROR x k).
Proof.
  intros Hx Hk. unfold ESP_RETURN_ON_ERROR. apply appends_bind; [assumption|].
  intros r. destruct (is_ok r); [assumption | apply appends_ret].
Qed.

Lemma appends_with_panel f : appends (modify (with_panel f)).
Proof. intros w. exists []. cbn. now rewrite app_nil_r. Qed.

Lemma appends_panel_cast : appends panel_cast.
Proof. intros w. exists []. cbn. now rewrite app_nil_r. Qed.

Lemma appends_send_command_addr io a prm : appends (send_command_addr io a prm).
Proof. apply appends_send_command. Qed.

#[local] Hint Resolve appends_ret appends_send_command appends_with_panel
  appends_panel_cast appends_send_command_addr : trace_db.

Lemma appends_update_screen_orientation io : appends (update_screen_orientation io).
Proof.
  unfold update_screen_orientation. apply appends_bind; auto with trace_db.
Qed.

Lemma appends_set_brightness io b :
  appends (esp_lcd_panel_rm690b0_set_brightness io b).
Proof.
  unfold esp_lcd_panel_rm690b0_set_brightness.
  apply appends_bind; auto with trace_db.
Qed.

#[local] Hint Resolve appends_update_screen_orientation appends_set_brightness
  : trace_db.

Lemma appends_init_configure io p : appends (init_configure io p).
Proof.
  unfold init_configure.
  apply appends_bind; [auto with trace_db|].
  intros _. destruct (get_pixel_format p =? 0); [auto with trace_db|].
  apply appends_return_on_error; [auto with trace_db|].
  apply appends_bind.
  - destruct (bits_per_pixel p =? 16); [|auto with trace_db].
    apply appends_bind; auto with trace_db.
  - intros _. apply appends_return_on_error; auto with trace_db.
Qed.

(** C5. When the transport rejects the init command at position [k] (counted
    from 0) after accepting the earlier ones, [init] returns the code of that
    rejection and has sent exactly the commands up to position [k]: none of
    the later ones.  A rejection of the third command leaves the fourth and
    all later ones unsent. *)
Theorem init_fail_fast io (w : World) (k : nat) :
  (k < 8)%nat ->
  first_failure io (ncalls w) k ->
  runState (init io) w =
    (io (ncalls w + k)%nat,
     after (power_up_events (panel w)
            ++ flat_map command_events (firstn (S k) default_init_cmds)) w)
  /\ fst (runState (init io) w) <> ESP_OK
  /\ transactions (trace (snd (runState (init io) w))) =
       transactions (trace w) ++ map wire (firstn (S k) default_init_cmds).
Proof.
  intros Hk Hfail.
  assert (Hrun : runState (init io) w =
    (io (ncalls w + k)%nat,
     after (power_up_events (panel w)
            ++ flat_map command_events (firstn (S k) default_init_cmds)) w)).
  { rewrite run_init.
    rewrite (send_commands_first_failure io default_init_cmds k).
    - rewrite ncalls_after_power_up.
      rewrite (proj2 (is_ok_false _) (proj2 Hfail)).
      now rewrite after_after.
    - exact Hk.
    - now rewrite ncalls_after_power_up. }
  rewrite Hrun. cbn [fst snd]. repeat split.
  - exact (proj2 Hfail).
  - unfold after. cbn [trace].
    rewrite !transactions_app, transactions_power_up, transactions_command_events.
    reflexivity.
Qed.

Lemma init_fail_fast_witness :
  fst (runState (init (io_fail_at 2)) (fresh_world panel16)) = ESP_FAIL
  /\ transactions (trace (snd (runState (init (io_fail_at 2)) (fresh_world panel16)))) =
     [TxParam 0x0200FE00 [0x20]; TxParam 0x02002400 [0x80]; TxParam 0x02005B00 [0x2E]].
Proof.
  assert (Hf : first_failure (io_fail_at 2) (ncalls (fresh_world panel16)) 2).
  { split.
    - intros j Hj. destruct j as [|[|j]]; [reflexivity | reflexivity | lia].
    - discriminate. }
  destruct (init_fail_fast (io_fail_at 2) (fresh_world panel16) 2 ltac:(lia) Hf)
    as (Hrun & _ & Htx).
  split.
  - rewrite Hrun. reflexivity.
  - exact Htx.
Defined.

(** C6. The bring-up list is a constant of the driver, built anew from the
    same eight (address, parameters) pairs at every call and not part of the
    device record: 0xFE/0x20, 0x24/0x80, 0x5B/0x2E, 0xFE/0x00, 0xC2/0x00,
    0x35/0x00, 0x11, 0x29.  Whatever the configuration and the transport,
    the transactions of [init] start with an initial segment of that list,
    in that order, and nothing else is sent unless the whole list went out;
    with an accepting transport the whole list goes out. *)
Theorem init_sequence_fixed :
  default_init_cmds =
    map (fun ap => new_LCDCmd (fst ap) (snd ap)) spec_init_sequence
  /\ map wire default_init_cmds =
       [ TxParam 0x0200FE00 [0x20]; TxParam 0x02002400 [0x80];
         TxParam 0x02005B00 [0x2E]; TxParam 0x0200FE00 [0x00];
         TxParam 0x0200C200 [0x00]; TxParam 0x02003500 [0x00];
         TxParam 0x02001100 []; TxParam 0x02002900 [] ]
  /\ map delay default_init_cmds = [0; 0; 0; 0; 10; 0; 120; 10]
  /\ (forall io (w : World), exists m rest,
        transactions (trace (snd (runState (init io) w))) =
          transactions (trace w) ++ map wire (firstn m default_init_cmds) ++ rest
        /\ (m = 8%nat \/ rest = [])
        /\ (accepted io (ncalls w) 8 -> m = 8%nat)).
Proof.
  split; [reflexivity|]. split; [reflexivity|]. split; [reflexivity|].
  intros io w.
  pose (w1 := after (power_up_events (panel w)) w).
  destruct (send_commands_prefix io default_init_cmds w1) as (m & Hm & Hsnd & Hok).
  assert (Hacc : accepted io (ncalls w) 8 -> m = 8%nat).
  { intros H. apply Hok. rewrite send_commands_accepted; [reflexivity|].
    unfold w1. rewrite ncalls_after_power_up. exact H. }
  assert (Htx : transactions (trace (snd (runState (send_commands io default_init_cmds) w1))) =
                transactions (trace w) ++ map wire (firstn m default_init_cmds)).
  { rewrite Hsnd. unfold w1, after. cbn [trace].
    rewrite !transactions_app, transactions_power_up, transactions_command_events.
    now rewrite app_nil_r. }
  rewrite run_init. fold w1.
  destruct (runState (send_commands io default_init_cmds) w1) as [r w2] eqn:E.
  cbn [fst snd] in *.
  destruct (is_ok r) eqn:Er.
  - destruct (appends_init_configure io (panel w) w2) as [es Hes].
    exists m, (transactions es). rewrite Hes, transactions_app, Htx, <- app_assoc.
    split; [reflexivity|]. split; [left; now apply Hok | exact Hacc].
  - exists m, []. cbn [snd]. rewrite Htx, app_nil_r.
    split; [reflexivity|]. split; [now right | exact Hacc].
Qed.

Lemma init_sequence_fixed_witness :
  exists m rest,
    transactions (trace (snd (runState (init io_ok) (fresh_world panel16)))) =
      map wire (firstn m default_init_cmds) ++ rest
    /\ m = 8%nat.
Proof.
  destruct (proj2 (proj2 (proj2 init_sequence_fixed)) io_ok (fresh_world panel16))
    as (m & rest & Htx & _ & Hacc).
  exists m, rest. split; [exact Htx|].
  apply Hacc. intros j _. reflexivity.
Defined.

(** ** Gap *)

Lemma run_set_gap gx gy w :
  runState (set_gap gx gy) w =
  (ESP_OK, with_panel (set_gap_fields (to_uint8 gx) (to_uint8 gy)) w).
Proof. reflexivity. Qed.

Lemma to_uint8_range z : 0 <= to_uint8 z < 256.
Proof. unfold to_uint8. change (2 ^ 8) with 256. apply Z.mod_pos_bound. lia. Qed.

Lemma to_uint8_idem z : to_uint8 (to_uint8 z) = to_uint8 z.
Proof. unfold to_uint8. apply Z.mod_mod. discriminate. Qed.

(** ** Drawing *)

Lemma run_draw_bitmap io w xs ys xe ye data :
  runState (draw_bitmap io xs ys xe ye data) w =
  (let (r, w') := runState (send_commands io (draw_window_cmds (panel w) xs ys xe ye)) w in
   if is_ok r
   then runState (tx_color io 0x32002C00 data (payload_size (panel w) xs ys xe ye)) w'
   else (r, w')).
Proof.
  unfold draw_bitmap. rewrite run_bind.
  change (runState panel_cast w) with (panel w, w). cbv iota beta zeta.
  rewrite run_return_on_error.
  unfold payload_size, draw_window_cmds.
  change (pixel_prefix + Z.shiftl LCD_CMD_RAMWR 8) with 0x32002C00.
  reflexivity.
Qed.

Lemma run_tx_color io c d len w :
  runState (tx_color io c d len) w = (io (ncalls w), after [TxColor c d len] w).
Proof.
  unfold after. cbn. unfold transact. cbn.
  replace (S (ncalls w)) with (ncalls w + 1)%nat by lia. reflexivity.
Qed.

Lemma congr32_refl a : congr32 a a.
Proof. exists 0. lia. Qed.

Lemma congr32_to_int a b : congr32 a b -> congr32 (to_int a) b.
Proof.
  intros [q ->]. destruct (to_int_congr (b + q * 2 ^ 32)) as [q' ->].
  exists (q + q'). lia.
Qed.

Lemma congr32_add a a' b b' : congr32 a a' -> congr32 b b' -> congr32 (a + b) (a' + b').
Proof. intros [q ->] [r ->]. exists (q + r). lia. Qed.

Lemma congr32_sub a a' b b' : congr32 a a' -> congr32 b b' -> congr32 (a - b) (a' - b').
Proof. intros [q ->] [r ->]. exists (q - r). lia. Qed.

Lemma congr32_mul a a' b b' : congr32 a a' -> congr32 b b' -> congr32 (a * b) (a' * b').
Proof.
  intros [q ->] [r ->]. exists (q * b' + r * a' + q * r * 2 ^ 32). ring.
Qed.

Lemma congr32_to_size_t a b : congr32 a b -> to_size_t a = to_size_t b.
Proof. intros [q ->]. unfold to_size_t. apply Z_mod_plus_full. Qed.

#[local] Hint Resolve congr32_refl congr32_to_int congr32_add congr32_sub
  congr32_mul : wrap_db.

Lemma high_low_congr a v : congr32 a v -> high_low a = spec_be16 v.
Proof.
  intros [q ->].
  unfold high_low, spec_be16, spec_high, spec_low.
  rewrite !land_255, shiftr_8, !to_uint8_mod.
  change (2 ^ 32) with (16777216 * 256).
  replace (v + q * (16777216 * 256)) with (v + (q * 16777216) * 256) by ring.
  rewrite Z_div_plus_full by lia. rewrite Z_mod_plus_full.
  replace (v / 256 + q * 16777216) with (v / 256 + (q * 65536) * 256) by ring.
  rewrite Z_mod_plus_full. reflexivity.
Qed.

(** A value that fits 16 bits is recovered from its two bytes. *)
Lemma spec_be16_decode v :
  0 <= v < 65536 -> 256 * spec_high v + spec_low v = v.
Proof.
  intros H. unfold spec_high, spec_low.
  rewrite (Z.mod_small (v / 256)).
  - pose proof (Z.div_mod v 256). lia.
  - split; [apply Z.div_pos; lia | apply Z.div_lt_upper_bound; lia].
Qed.

Lemma draw_window_events p xs ys xe ye :
  flat_map command_events (draw_window_cmds p xs ys xe ye) =
  spec_window_events (x_gap p) (y_gap p) xs ys xe ye.
Proof.
  unfold draw_window_cmds, window_cmds, spec_window_events.
  cbn [flat_map command_events wire app new_LCDCmd lcd_cmd param delay].
  assert (Hend : forall e g, congr32 (to_int (e + to_int (g - 1))) (e + g - 1)).
  { intros e g. replace (e + g - 1) with (e + (g - 1)) by ring.
    auto with wrap_db. }
  rewrite (high_low_congr (to_int (xs + x_gap p)) (xs + x_gap p))
    by auto with wrap_db.
  rewrite (high_low_congr (to_int (ys + y_gap p)) (ys + y_gap p))
    by auto with wrap_db.
  rewrite (high_low_congr _ _ (Hend xe (x_gap p))).
  rewrite (high_low_congr _ _ (Hend ye (y_gap p))).
  reflexivity.
Qed.

Lemma to_size_t_mul_l a b : to_size_t (to_size_t a * b) = to_size_t (a * b).
Proof. unfold to_size_t. apply Z.mul_mod_idemp_l. discriminate. Qed.

(** The byte count is the claimed product reduced modulo 2^32, then divided. *)
Lemma payload_size_wraps p xs ys xe ye :
  payload_size p xs ys xe ye =
  to_size_t ((xe - xs) * (ye - ys) * bits_per_pixel p) / 8.
Proof.
  unfold payload_size, bits_per_byte. f_equal.
  rewrite to_size_t_mul_l.
  apply congr32_to_size_t. apply congr32_mul; [|apply congr32_refl].
  apply congr32_to_int, congr32_mul.
  - apply congr32_to_int.
    replace (xe - xs) with ((xe + (x_gap p - 1) - (xs + x_gap p)) + 1) by ring.
    auto 10 with wrap_db.
  - apply congr32_to_int.
    replace (ye - ys) with ((ye + (y_gap p - 1) - (ys + y_gap p)) + 1) by ring.
    auto 10 with wrap_db.
Qed.

Lemma payload_size_exact p xs ys xe ye :
  0 <= (xe - xs) * (ye - ys) * bits_per_pixel p < 2 ^ 32 ->
  payload_size p xs ys xe ye = spec_payload xs ys xe ye (bits_per_pixel p).
Proof.
  intros H. rewrite payload_size_wraps. unfold to_size_t, spec_payload.
  rewrite Z.mod_small by exact H.
  symmetry. apply Z.quot_div_nonneg; lia.
Qed.

Lemma flat_map_command_events_firstn m :
  forall cmds, flat_map command_events (firstn m cmds) =
               firstn (2 * m) (flat_map command_events cmds).
Proof.
  induction m as [|m IH]; intros cmds; [reflexivity|].
  destruct cmds as [|c cmds]; [reflexivity|].
  replace (2 * S m)%nat with (S (S (2 * m))) by lia.
  cbn [firstn flat_map command_events app]. now rewrite IH.
Qed.

Lemma payloads_command_events cmds :
  filter is_tx_color (flat_map command_events cmds) = [].
Proof. induction cmds as [|c cmds IH]; [reflexivity | exact IH]. Qed.

Lemma accepted_or_first_failure io n k :
  accepted io n k \/ exists j, (j < k)%nat /\ first_failure io n j.
Proof.
  induction k as [|k [Hacc | (j & Hj & Hf)]].
  - left. intros j Hj. lia.
  - destruct (Z.eq_dec (io (n + k)%nat) ESP_OK) as [Hk | Hk].
    + left. intros j Hj.
      destruct (Nat.eq_dec j k) as [-> | Hne]; [exact Hk | apply Hacc; lia].
    + right. exists k. split; [lia | split; assumption].
  - right. exists j. split; [lia | exact Hf].
Qed.

Lemma first_failure_not_accepted io n j k :
  (j < k)%nat -> first_failure io n j -> ~ accepted io n k.
Proof. intros Hj [_ Hat] Hacc. apply Hat, Hacc, Hj. Qed.

Lemma draw_bitmap_accepted io w xs ys xe ye data :
  accepted io (ncalls w) 3 ->
  runState (draw_bitmap io xs ys xe ye data) w =
  (io (ncalls w + 3)%nat,
   after (flat_map command_events (draw_window_cmds (panel w) xs ys xe ye)
          ++ [TxColor 0x32002C00 data (payload_size (panel w) xs ys xe ye)]) w).
Proof.
  intros Hacc. rewrite run_draw_bitmap.
  rewrite send_commands_accepted by exact Hacc.
  change (is_ok ESP_OK) with true. cbv iota.
  rewrite run_tx_color, after_after. reflexivity.
Qed.

Lemma draw_bitmap_first_failure io w xs ys xe ye data k :
  (k < 3)%nat -> first_failure io (ncalls w) k ->
  runState (draw_bitmap io xs ys xe ye data) w =
  (io (ncalls w + k)%nat,
   after (flat_map command_events
            (firstn (S k) (draw_window_cmds (panel w) xs ys xe ye))) w).
Proof.
  intros Hk Hf. rewrite run_draw_bitmap.
  rewrite (send_commands_first_failure io _ k) by assumption.
  now rewrite (proj2 (is_ok_false _) (proj2 Hf)).
Qed.

(** Whatever the transport does, a draw makes an initial segment of the calls
    of a complete draw. *)
Lemma draw_bitmap_trace_prefix io w xs ys xe ye data :
  exists m,
    trace (snd (runState (draw_bitmap io xs ys xe ye data) w)) =
    trace w ++
    firstn m (flat_map command_events (draw_window_cmds (panel w) xs ys xe ye)
              ++ [TxColor 0x32002C00 data (payload_size (panel w) xs ys xe ye)]).
Proof.
  destruct (accepted_or_first_failure io (ncalls w) 3) as [Hacc | (k & Hk & Hf)].
  - exists 7%nat. rewrite draw_bitmap_accepted by exact Hacc. reflexivity.
  - exists (2 * S k)%nat. rewrite (draw_bitmap_first_failure io w xs ys xe ye data k Hk Hf).
    cbn [snd after trace]. f_equal.
    rewrite flat_map_command_events_firstn.
    rewrite firstn_app.
    replace (2 * S k - length (flat_map command_events
               (draw_window_cmds (panel w) xs ys xe ye)))%nat with 0%nat.
    + cbn [firstn]. now rewrite app_nil_r.
    + change (length (flat_map command_events
                (draw_window_cmds (panel w) xs ys xe ye))) with 6%nat. lia.
Qed.

(** C4 (amended). For every rectangle and every gap pair the
    column-address-set parameters are the high and low bytes of
    [x_start + gx] and of [x_end + gx - 1] (the 16-bit big-endian encodings
    of these values reduced modulo 2^16), the row-address-set parameters are
    the same with y and [gy], and the byte count handed to the pixel
    transport is (x_end - x_start) * (y_end - y_start) * bpp reduced modulo
    2^32 and then divided by 8: whatever the transport does, the calls of a
    draw are an initial segment of that sequence, and all of it when the
    three window commands are accepted.  When the product of area and depth
    is non-negative and below 2^32 the byte count is that product divided by
    8 with truncating division, as the specification has it. *)
Theorem draw_bitmap_window_and_payload io (w : World) (xs ys xe ye data : Z) :
  (exists m,
     trace (snd (runState (draw_bitmap io xs ys xe ye data) w)) =
     trace w ++ firstn m (spec_draw_events_mod (panel w) xs ys xe ye data))
  /\ (accepted io (ncalls w) 3 ->
      runState (draw_bitmap io xs ys xe ye data) w =
      (io (ncalls w + 3)%nat,
       after (spec_draw_events_mod (panel w) xs ys xe ye data) w))
  /\ (0 <= (xe - xs) * (ye - ys) * bits_per_pixel (panel w) < 2 ^ 32 ->
      spec_draw_events_mod (panel w) xs ys xe ye data =
        spec_draw_events (panel w) xs ys xe ye data
      /\ (exists m,
            trace (snd (runState (draw_bitmap io xs ys xe ye data) w)) =
            trace w ++ firstn m (spec_draw_events (panel w) xs ys xe ye data))
      /\ (accepted io (ncalls w) 3 ->
          runState (draw_bitmap io xs ys xe ye data) w =
          (io (ncalls w + 3)%nat,
           after (spec_draw_events (panel w) xs ys xe ye data) w))).
Proof.
  assert (Hev : flat_map command_events (draw_window_cmds (panel w) xs ys xe ye)
                ++ [TxColor 0x32002C00 data (payload_size (panel w) xs ys xe ye)]
                = spec_draw_events_mod (panel w) xs ys xe ye data).
  { unfold spec_draw_events_mod, spec_payload_mod.
    rewrite draw_window_events, payload_size_wraps. reflexivity. }
  assert (Hprefix : exists m,
     trace (snd (runState (draw_bitmap io xs ys xe ye data) w)) =
     trace w ++ firstn m (spec_draw_events_mod (panel w) xs ys xe ye data)).
  { destruct (draw_bitmap_trace_prefix io w xs ys xe ye data) as [m Hm].
    exists m. rewrite Hm, Hev. reflexivity. }
  assert (Hfull : accepted io (ncalls w) 3 ->
      runState (draw_bitmap io xs ys xe ye data) w =
      (io (ncalls w + 3)%nat,
       after (spec_draw_events_mod (panel w) xs ys xe ye data) w)).
  { intros Hacc. rewrite draw_bitmap_accepted by exact Hacc. now rewrite Hev. }
  split; [exact Hprefix|]. split; [exact Hfull|].
  intros Hrange.
  assert (Heq : spec_draw_events_mod (panel w) xs ys xe ye data =
                spec_draw_events (panel w) xs ys xe ye data).
  { unfold spec_draw_events_mod, spec_draw_events, spec_payload_mod, spec_payload.
    rewrite Z.mod_small by exact Hrange.
    rewrite Z.quot_div_nonneg by lia. reflexivity. }
  split; [exact Heq|]. rewrite <- Heq. split; assumption.
Qed.

Lemma draw_bitmap_window_and_payload_witness :
  runState (draw_bitmap io_ok 0 0 100 50 0) (fresh_world panel16) =
  (ESP_OK,
   after [ TxParam 0x02002A00 [0; 2; 0; 101]; SleepFor 0;
           TxParam 0x02002B00 [0; 3; 0; 52]; SleepFor 0;
           TxParam 0x02002C00 []; SleepFor 0;
           TxColor 0x32002C00 0 10000 ] (fresh_world panel16)).
Proof.
  refine (proj2 (proj2 (proj2 (proj2 (draw_bitmap_window_and_payload io_ok
                                        (fresh_world panel16) 0 0 100 50 0)) _)) _).
  - cbn. lia.
  - intros j _. reflexivity.
Defined.

(** C4 as stated fails: a 16384 x 16384 rectangle at 16 bits per pixel has
    2^32 bits, the product wraps in the 32-bit [size_t] and the transport is
    handed 0 bytes instead of 536870912. *)
Lemma draw_bitmap_payload_wraps :
  spec_payload 0 0 16384 16384 (bits_per_pixel panel16) = 536870912
  /\ trace (snd (runState (draw_bitmap io_ok 0 0 16384 16384 0) (fresh_world panel16))) =
     [ TxParam 0x02002A00 [0; 2; 64; 1]; SleepFor 0;
       TxParam 0x02002B00 [0; 3; 64; 2]; SleepFor 0;
       TxParam 0x02002C00 []; SleepFor 0;
       TxColor 0x32002C00 0 0 ]
  /\ trace (snd (runState (draw_bitmap io_ok 0 0 16384 16384 0) (fresh_world panel16))) <>
     spec_draw_events panel16 0 0 16384 16384 0.
Proof.
  split; [reflexivity|]. split; [reflexivity|].
  vm_compute. discriminate.
Qed.

(** C8. When one of the three window transactions (column-address-set,
    row-address-set, begin-memory-write) is the first to be rejected, the draw
    returns the code of that rejection, the later window commands are not
    sent and no pixel payload reaches the transport; a payload is handed over
    only when all three were accepted, and then after them. *)
Theorem draw_bitmap_window_failure_aborts io (w : World) (xs ys xe ye data : Z) :
  (forall k, (k < 3)%nat -> first_failure io (ncalls w) k ->
     runState (draw_bitmap io xs ys xe ye data) w =
       (io (ncalls w + k)%nat,
        after (flat_map command_events
                 (firstn (S k) (draw_window_cmds (panel w) xs ys xe ye))) w)
     /\ fst (runState (draw_bitmap io xs ys xe ye data) w) <> ESP_OK
     /\ payloads (trace (snd (runState (draw_bitmap io xs ys xe ye data) w))) =
        payloads (trace w))
  /\ (payloads (trace (snd (runState (draw_bitmap io xs ys xe ye data) w))) <>
      payloads (trace w) ->
      accepted io (ncalls w) 3
      /\ trace (snd (runState (draw_bitmap io xs ys xe ye data) w)) =
         trace w
         ++ flat_map command_events (draw_window_cmds (panel w) xs ys xe ye)
         ++ [TxColor 0x32002C00 data (payload_size (panel w) xs ys xe ye)]).
Proof.
  assert (Hfail : forall k, (k < 3)%nat -> first_failure io (ncalls w) k ->
     runState (draw_bitmap io xs ys xe ye data) w =
       (io (ncalls w + k)%nat,
        after (flat_map command_events
                 (firstn (S k) (draw_window_cmds (panel w) xs ys xe ye))) w)
     /\ fst (runState (draw_bitmap io xs ys xe ye data) w) <> ESP_OK
     /\ payloads (trace (snd (runState (draw_bitmap io xs ys xe ye data) w))) =
        payloads (trace w)).
  { intros k Hk Hf.
    rewrite (draw_bitmap_first_failure io w xs ys xe ye data k Hk Hf).
    cbn [fst snd after trace]. repeat split.
    - exact (proj2 Hf).
    - unfold payloads. rewrite filter_app, payloads_command_events.
      apply app_nil_r. }
  split; [exact Hfail|].
  intros Hsent.
  destruct (accepted_or_first_failure io (ncalls w) 3) as [Hacc | (k & Hk & Hf)].
  - split; [exact Hacc|].
    rewrite draw_bitmap_accepted by exact Hacc. reflexivity.
  - exfalso. apply Hsent. exact (proj2 (proj2 (Hfail k Hk Hf))).
Qed.

Lemma draw_bitmap_window_failure_aborts_witness :
  runState (draw_bitmap (io_fail_at 1) 0 0 100 50 0) (fresh_world panel16) =
  (ESP_FAIL,
   after [ TxParam 0x02002A00 [0; 2; 0; 101]; SleepFor 0;
           TxParam 0x02002B00 [0; 3; 0; 52]; SleepFor 0 ] (fresh_world panel16)).
Proof.
  refine (proj1 (proj1 (draw_bitmap_window_failure_aborts (io_fail_at 1)
                          (fresh_world panel16) 0 0 100 50 0) 1%nat _ _)).
  - lia.
  - split.
    + intros j Hj. destruct j as [|j]; [reflexivity | lia].
    + discriminate.
Defined.

(** C9. [set_gap] only rewrites the two gap fields: it returns [ESP_OK] and
    makes no call.  Applying it twice with the same arguments gives the same
    world as applying it once, so the draw that follows behaves the same and
    sends the same window parameter bytes. *)
Theorem set_gap_idempotent (gx gy : Z) (w : World) :
  fst (runState (set_gap gx gy) w) = ESP_OK
  /\ trace (snd (runState (set_gap gx gy) w)) = trace w
  /\ ncalls (snd (runState (set_gap gx gy) w)) = ncalls w
  /\ snd (runState (set_gap gx gy ;; set_gap gx gy) w) =
     snd (runState (set_gap gx gy) w)
  /\ (forall io xs ys xe ye data,
        runState (set_gap gx gy ;; set_gap gx gy ;;
                  draw_bitmap io xs ys xe ye data) w =
        runState (set_gap gx gy ;; draw_bitmap io xs ys xe ye data) w)
  /\ (forall xs ys xe ye,
        draw_window_cmds
          (panel (snd (runState (set_gap gx gy ;; set_gap gx gy) w))) xs ys xe ye =
        draw_window_cmds (panel (snd (runState (set_gap gx gy) w))) xs ys xe ye).
Proof.
  assert (Htwice : snd (runState (set_gap gx gy ;; set_gap gx gy) w) =
                   snd (runState (set_gap gx gy) w)).
  { rewrite run_bind, !run_set_gap. reflexivity. }
  split; [now rewrite run_set_gap|].
  split; [now rewrite run_set_gap|].
  split; [now rewrite run_set_gap|].
  split; [exact Htwice|].
  split.
  - intros io xs ys xe ye data.
    rewrite (run_bind (set_gap gx gy)
               (fun _ => set_gap gx gy ;; draw_bitmap io xs ys xe ye data)).
    rewrite (run_bind (set_gap gx gy) (fun _ => draw_bitmap io xs ys xe ye data) w).
    rewrite !run_set_gap. rewrite run_bind, run_set_gap. reflexivity.
  - intros xs ys xe ye. now rewrite Htwice.
Qed.

(** C10. [set_gap] takes [int] arguments and keeps them in [uint8_t] fields:
    whatever the arguments, negative ones included, it returns [ESP_OK] and
    the stored gaps are [gx mod 256] and [gy mod 256]; these reduced values
    are the offsets in the window parameters of the draws that follow. *)
Theorem set_gap_wraps_to_uint8 (gx gy : Z) (w : World) :
  fst (runState (set_gap gx gy) w) = ESP_OK
  /\ x_gap (panel (snd (runState (set_gap gx gy) w))) = gx mod 256
  /\ y_gap (panel (snd (runState (set_gap gx gy) w))) = gy mod 256
  /\ 0 <= x_gap (panel (snd (runState (set_gap gx gy) w))) < 256
  /\ 0 <= y_gap (panel (snd (runState (set_gap gx gy) w))) < 256
  /\ (forall io xs ys xe ye data, exists m,
        trace (snd (runState (set_gap gx gy ;; draw_bitmap io xs ys xe ye data) w)) =
        trace w ++
        firstn m
          (spec_window_events (gx mod 256) (gy mod 256) xs ys xe ye
           ++ [TxColor 0x32002C00 data
                 (payload_size (panel (snd (runState (set_gap gx gy) w)))
                    xs ys xe ye)]))
  /\ runState (set_gap (-1) 300) w =
       (ESP_OK, with_panel (set_gap_fields 255 44) w).
Proof.
  rewrite run_set_gap. cbn [fst snd with_panel panel set_gap_fields x_gap y_gap].
  split; [reflexivity|].
  split; [reflexivity|].
  split; [reflexivity|].
  split; [apply to_uint8_range|].
  split; [apply to_uint8_range|].
  split; [|reflexivity].
  intros io xs ys xe ye data.
  rewrite run_bind, run_set_gap.
  destruct (draw_bitmap_trace_prefix io
              (with_panel (set_gap_fields (to_uint8 gx) (to_uint8 gy)) w)
              xs ys xe ye data) as [m Hm].
  exists m. rewrite Hm, draw_window_events. reflexivity.
Qed.

(** * Further properties of the driver *)

(** ** Orientation byte *)

(** X1. Without axis swap the mirror-x request has no effect on the scan
    direction: the code is the same whatever [mirror_x] is, so a lone
    mirror-x request gives the default direction 0x00. *)
Theorem mirror_x_ignored_without_swap (p : RM690B0Panel) (mx : bool) :
  swap_xy p = false ->
  get_scan_direction (set_mirror_fields mx (mirror_y p) p) = get_scan_direction p
  /\ (mirror_y p = false -> get_scan_direction p = 0x00).
Proof.
  intros Hs. unfold get_scan_direction.
  destruct p as [b rg en gx gy bpp sw mx0 my ord gray]. cbn in *. subst sw.
  split; [reflexivity|]. intros ->. reflexivity.
Qed.

Lemma mirror_x_ignored_without_swap_witness :
  get_scan_direction (set_mirror_fields true (mirror_y default_panel) default_panel) =
  get_scan_direction default_panel.
Proof.
  exact (proj1 (mirror_x_ignored_without_swap default_panel true eq_refl)).
Defined.

(** X2. The orientation byte can be read back: its bit 3 alone tells the
    channel order, the remaining bits are the scan direction, which is one
    of 0x00, 0x10, 0x20, 0x30, 0x60 (never 0x40 or 0x50), and the byte
    fits in 8 bits. *)
Theorem orientation_param_decodes (p : RM690B0Panel) :
  Z.land (orientation_param p) 0x08 =
    (if rgb_order_eqb (rgb_ele_order p) LCD_RGB_ELEMENT_ORDER_BGR then 0x08 else 0)
  /\ Z.land (orientation_param p) 0xF7 = get_scan_direction p
  /\ In (get_scan_direction p) [0x00; 0x10; 0x20; 0x30; 0x60]
  /\ 0 <= orientation_param p < 256.
Proof.
  unfold orientation_param, get_scan_direction.
  destruct (swap_xy p), (mirror_x p), (mirror_y p), (rgb_ele_order p);
    vm_compute; repeat split; try discriminate; auto 10.
Qed.

(** ** Pixel format *)

(** X3. On supported configurations the format byte determines the
    configuration: two records with the same non-zero format byte have the
    same depth and the same grayscale flag. *)
Theorem get_pixel_format_injective (p q : RM690B0Panel) :
  get_pixel_format p <> 0 ->
  get_pixel_format p = get_pixel_format q ->
  bits_per_pixel p = bits_per_pixel q /\ grayscale p = grayscale q.
Proof.
  unfold get_pixel_format.
  destruct p as [b rg en gx gy bpp sw mx my ord gray].
  destruct q as [b' rg' en' gx' gy' bpp' sw' mx' my' ord' gray'].
  cbn [grayscale bits_per_pixel].
  destruct (Z.eqb_spec bpp 8), (Z.eqb_spec bpp 3), (Z.eqb_spec bpp 16),
    (Z.eqb_spec bpp 18), (Z.eqb_spec bpp 24); subst; try discriminate;
  destruct gray; cbn; try congruence;
  destruct (Z.eqb_spec bpp' 8), (Z.eqb_spec bpp' 3), (Z.eqb_spec bpp' 16),
    (Z.eqb_spec bpp' 18), (Z.eqb_spec bpp' 24); subst; try discriminate;
  destruct gray'; cbn; intros Hnz Heq; try discriminate; try congruence;
  split; reflexivity.
Qed.

Lemma get_pixel_format_injective_witness :
  bits_per_pixel panel16 = bits_per_pixel (set_gap_fields 0 0 panel16)
  /\ grayscale panel16 = grayscale (set_gap_fields 0 0 panel16).
Proof.
  apply get_pixel_format_injective; [discriminate | reflexivity].
Defined.

(** ** Command sequences *)

Lemma accepted_split io n a b :
  accepted io n (a + b) <-> accepted io n a /\ accepted io (n + a) b.
Proof.
  unfold accepted. split.
  - intros H. split; intros j Hj.
    + apply H. lia.
    + rewrite <- Nat.add_assoc. apply H. lia.
  - intros [Ha Hb] j Hj. destruct (Nat.lt_ge_cases j a) as [Hlt | Hge].
    + apply Ha, Hlt.
    + replace (n + j)%nat with (n + a + (j - a))%nat by lia. apply Hb. lia.
Qed.

Lemma first_failure_code io n k : first_failure io n k -> is_ok (io (n + k)%nat) = false.
Proof. intros [_ H]. now apply is_ok_false. Qed.

(** X4. [send_commands] reports [ESP_OK] exactly when the transport accepted
    one transaction per command of the list; it never makes more
    transactions than the list has commands and never touches the device
    record.  On the empty list it reports [ESP_OK] without any call. *)
Theorem send_commands_ok_iff io (cmds : list LCDCmd) (w : World) :
  (fst (runState (send_commands io cmds) w) = ESP_OK <->
   accepted io (ncalls w) (length cmds))
  /\ (ncalls (snd (runState (send_commands io cmds) w)) <= ncalls w + length cmds)%nat
  /\ panel (snd (runState (send_commands io cmds) w)) = panel w
  /\ runState (send_commands io []) w = (ESP_OK, w).
Proof.
  destruct (accepted_or_first_failure io (ncalls w) (length cmds))
    as [Hacc | (k & Hk & Hf)].
  - rewrite (send_commands_accepted io cmds w Hacc). cbn [fst snd after ncalls panel].
    rewrite length_transactions_command_events.
    repeat split; auto; lia.
  - rewrite (send_commands_first_failure io cmds k w Hk Hf).
    cbn [fst snd after ncalls panel].
    rewrite length_transactions_command_events.
    assert (Hlen : length (firstn (S k) cmds) = S k) by (apply firstn_length_le; lia).
    rewrite Hlen. destruct Hf as [Hb Hat].
    split; [split; [intros H; contradiction | intros H; exfalso; apply Hat, H, Hk]|].
    split; [lia|].
    split; reflexivity.
Qed.

(** X5. Sending the concatenation of two lists is sending the first and,
    unless that failed, the second; a failure in the first list leaves the
    whole second list unsent. *)
Theorem send_commands_app io (l1 l2 : list LCDCmd) (w : World) :
  runState (send_commands io (l1 ++ l2)) w =
  runState (ESP_RETURN_ON_ERROR (send_commands io l1) (send_commands io l2)) w.
Proof.
  revert w. induction l1 as [|c l1 IH]; intros w.
  - rewrite run_return_on_error. reflexivity.
  - rewrite <- app_comm_cons, run_send_commands_cons, run_return_on_error,
      run_send_commands_cons.
    destruct (is_ok (io (ncalls w))) eqn:E.
    + rewrite IH, run_return_on_error. reflexivity.
    + cbv iota beta. rewrite E. reflexivity.
Qed.

(** ** Bring-up, continued *)

Lemma run_update_screen_orientation io w :
  runState (update_screen_orientation io) w =
  (io (ncalls w), after (madctl_events (panel w)) w).
Proof.
  unfold update_screen_orientation, send_command_addr, madctl_events.
  rewrite run_bind. change (runState panel_cast w) with (panel w, w).
  cbv iota beta. apply run_send_command.
Qed.

Lemma run_set_brightness io b w :
  runState (esp_lcd_panel_rm690b0_set_brightness io b) w =
  (io (ncalls w),
   after (brightness_events b) (with_panel (set_brightness_field b) w)).
Proof.
  unfold esp_lcd_panel_rm690b0_set_brightness, send_command_addr, brightness_events.
  transitivity
    (runState (send_command io (new_LCDCmd lcd_cmd_write_display_brightness [b]))
       (with_panel (set_brightness_field b) w)); [reflexivity|].
  rewrite run_send_command. reflexivity.
Qed.

Lemma ncalls_after_command_events c w :
  ncalls (after (command_events c) w) = S (ncalls w).
Proof. cbn. lia. Qed.

Lemma ncalls_after_byte_swap p w :
  ncalls (after (byte_swap_events p) w) =
  (ncalls w + byte_swap_calls p)%nat.
Proof.
  unfold byte_swap_events, byte_swap_calls.
  destruct (bits_per_pixel p =? 16); [reflexivity | cbn; lia].
Qed.

(** The configuration part of [init], step by step. *)
Lemma run_init_configure io p w :
  runState (init_configure io p) w =
  if get_pixel_format p =? 0
  then (ESP_ERR_INVALID_ARG, after (madctl_events (panel w)) w)
  else if is_ok (io (S (ncalls w)))
       then
         (if is_ok (io (S (S (ncalls w)) + byte_swap_calls p)%nat)
          then ESP_OK
          else io (S (S (ncalls w)) + byte_swap_calls p)%nat,
          after (brightness_events 0xFF)
            (with_panel (set_brightness_field 0xFF)
               (after (byte_swap_events p)
                  (after (colmod_events p) (after (madctl_events (panel w)) w)))))
       else (io (S (ncalls w)),
             after (colmod_events p) (after (madctl_events (panel w)) w)).
Proof.
  unfold init_configure. rewrite run_bind, run_update_screen_orientation.
  cbv iota beta zeta.
  destruct (get_pixel_format p =? 0); [reflexivity|].
  rewrite run_return_on_error. unfold send_command_addr.
  rewrite run_send_command. fold (colmod_events p).
  change (ncalls (after (madctl_events (panel w)) w)) with (ncalls w + 1)%nat.
  replace (ncalls w + 1)%nat with (S (ncalls w)) by lia.
  destruct (is_ok (io (S (ncalls w)))); [|reflexivity].
  set (w2 := after (colmod_events p) (after (madctl_events (panel w)) w)).
  assert (Hn2 : ncalls w2 = S (S (ncalls w))) by (unfold w2; cbn; lia).
  rewrite run_bind. unfold byte_swap_events, byte_swap_calls.
  destruct (bits_per_pixel p =? 16).
  - rewrite run_bind, run_send_command. cbv iota beta.
    match goal with
    | |- context [runState (ret tt) ?x] =>
        change (runState (ret tt) x) with (tt, x)
    end.
    cbv iota beta.
    rewrite run_return_on_error, run_set_brightness.
    rewrite ncalls_after_command_events, Hn2.
    replace (S (S (ncalls w)) + 1)%nat with (S (S (S (ncalls w)))) by lia.
    destruct (is_ok _); reflexivity.
  - change (runState (ret tt) w2) with (tt, w2). cbv iota beta.
    rewrite run_return_on_error, run_set_brightness, Hn2, after_nil.
    replace (S (S (ncalls w)) + 0)%nat with (S (S (ncalls w))) by lia.
    destruct (is_ok _); reflexivity.
Qed.

Lemma transactions_power_up_app p es :
  transactions (power_up_events p ++ es) = transactions es.
Proof. now rewrite transactions_app, transactions_power_up. Qed.

(** Once the bring-up list is accepted, [init] goes on to configure. *)
Lemma run_init_accepted io w :
  accepted io (ncalls w) 8 ->
  runState (init io) w =
  runState (init_configure io (panel w))
    (after (power_up_events (panel w) ++ flat_map command_events default_init_cmds) w).
Proof.
  intros Hacc. rewrite run_init, send_commands_accepted.
  - change (is_ok ESP_OK) with true. cbv iota. now rewrite after_after.
  - now rewrite ncalls_after_power_up.
Qed.

Lemma ncalls_after_bring_up p w :
  ncalls (after (power_up_events p ++ flat_map command_events default_init_cmds) w) =
  (ncalls w + 8)%nat.
Proof.
  unfold after. cbn [ncalls]. rewrite transactions_power_up_app.
  reflexivity.
Qed.

Lemma with_panel_after f es w :
  with_panel f (after es w) = after es (with_panel f w).
Proof. reflexivity. Qed.

(** The calls of [init] up to and including the orientation command. *)
Lemma run_init_after_bring_up io w :
  accepted io (ncalls w) 8 ->
  runState (init io) w =
  if get_pixel_format (panel w) =? 0
  then (ESP_ERR_INVALID_ARG,
        after (power_up_events (panel w)
               ++ flat_map command_events default_init_cmds
               ++ madctl_events (panel w)) w)
  else if is_ok (io (ncalls w + 9)%nat)
       then
         (if is_ok (io (ncalls w + 10 + byte_swap_calls (panel w))%nat)
          then ESP_OK
          else io (ncalls w + 10 + byte_swap_calls (panel w))%nat,
          after (power_up_events (panel w)
                 ++ flat_map command_events default_init_cmds
                 ++ madctl_events (panel w) ++ colmod_events (panel w)
                 ++ byte_swap_events (panel w) ++ brightness_events 0xFF)
            (with_panel (set_brightness_field 0xFF) w))
       else (io (ncalls w + 9)%nat,
             after (power_up_events (panel w)
                    ++ flat_map command_events default_init_cmds
                    ++ madctl_events (panel w) ++ colmod_events (panel w)) w).
Proof.
  intros Hacc. rewrite (run_init_accepted io w Hacc), run_init_configure.
  rewrite ncalls_after_bring_up.
  change (panel (after (power_up_events (panel w)
                        ++ flat_map command_events default_init_cmds) w))
    with (panel w).
  replace (S (ncalls w + 8)) with (ncalls w + 9)%nat by lia.
  replace (S (ncalls w + 9) + byte_swap_calls (panel w))%nat
    with (ncalls w + 10 + byte_swap_calls (panel w))%nat by lia.
  rewrite !with_panel_after, !after_after, <- !app_assoc.
  reflexivity.
Qed.

(** X6. [init] reports [ESP_OK] exactly when the transport accepted the
    eight bring-up commands, the pixel format is supported, and the format
    command and the final brightness command were accepted.  The results of
    the orientation command and of the 16-bpp byte-swap option play no part:
    their failures are ignored. *)
Theorem init_ok_iff io (w : World) :
  fst (runState (init io) w) = ESP_OK <->
  accepted io (ncalls w) 8
  /\ get_pixel_format (panel w) <> 0
  /\ io (ncalls w + 9)%nat = ESP_OK
  /\ io (ncalls w + 10 + byte_swap_calls (panel w))%nat = ESP_OK.
Proof.
  destruct (accepted_or_first_failure io (ncalls w) 8) as [Hacc | (k & Hk & Hf)].
  - rewrite (run_init_after_bring_up io w Hacc).
    destruct (Z.eqb_spec (get_pixel_format (panel w)) 0) as [H0 | H0].
    + cbn [fst]. split; [discriminate | intros (_ & H & _); contradiction].
    + destruct (is_ok (io (ncalls w + 9)%nat)) eqn:E9.
      * apply is_ok_true in E9. cbn [fst].
        destruct (is_ok (io (ncalls w + 10 + byte_swap_calls (panel w))%nat)) eqn:E10.
        -- apply is_ok_true in E10. tauto.
        -- apply is_ok_false in E10. tauto.
      * apply is_ok_false in E9. cbn [fst]. tauto.
  - rewrite run_init, (send_commands_first_failure io default_init_cmds k).
    + rewrite ncalls_after_power_up, (first_failure_code io _ k Hf). cbn [fst].
      split.
      * intros H. exfalso. exact (proj2 Hf H).
      * intros (Hacc & _). exfalso. exact (first_failure_not_accepted io _ k 8 Hk Hf Hacc).
    + exact Hk.
    + now rewrite ncalls_after_power_up.
Qed.

(** X7. An unsupported pixel format is detected only after the controller
    has been woken up: when the bring-up commands are accepted and the
    format is unsupported, [init] returns [ESP_ERR_INVALID_ARG] having sent
    the eight bring-up commands (display-on included) and the orientation
    command, and nothing after them; the device record is unchanged. *)
Theorem init_unsupported_format_after_bring_up io (w : World) :
  accepted io (ncalls w) 8 ->
  get_pixel_format (panel w) = 0 ->
  runState (init io) w =
  (ESP_ERR_INVALID_ARG,
   after (power_up_events (panel w)
          ++ flat_map command_events default_init_cmds
          ++ madctl_events (panel w)) w).
Proof.
  intros Hacc H0. rewrite (run_init_after_bring_up io w Hacc), H0. reflexivity.
Qed.

Lemma init_unsupported_format_after_bring_up_witness :
  fst (runState (init io_ok) (fresh_world default_panel)) = ESP_ERR_INVALID_ARG.
Proof.
  rewrite (init_unsupported_format_after_bring_up io_ok (fresh_world default_panel)).
  - reflexivity.
  - intros j _. reflexivity.
  - reflexivity.
Defined.

(** X8. When the bring-up commands and the format command are accepted for
    a supported format, [init] goes through to the brightness command: the
    cached brightness becomes 255 and nothing else in the device record
    changes, the byte-swap option 0x80/0x10 is sent exactly at 16 bits per
    pixel, and the result is [ESP_OK] or the code of a rejected brightness
    command; in that last case the cache still reads 255. *)
Theorem init_reaches_brightness io (w : World) :
  accepted io (ncalls w) 8 ->
  get_pixel_format (panel w) <> 0 ->
  io (ncalls w + 9)%nat = ESP_OK ->
  runState (init io) w =
  (if is_ok (io (ncalls w + 10 + byte_swap_calls (panel w))%nat)
   then ESP_OK
   else io (ncalls w + 10 + byte_swap_calls (panel w))%nat,
   after (power_up_events (panel w)
          ++ flat_map command_events default_init_cmds
          ++ madctl_events (panel w) ++ colmod_events (panel w)
          ++ byte_swap_events (panel w) ++ brightness_events 0xFF)
     (with_panel (set_brightness_field 0xFF) w)).
Proof.
  intros Hacc Hfmt H9. rewrite (run_init_after_bring_up io w Hacc).
  destruct (Z.eqb_spec (get_pixel_format (panel w)) 0) as [H0 | _]; [contradiction|].
  rewrite (proj2 (is_ok_true _) H9). reflexivity.
Qed.

Lemma init_reaches_brightness_witness :
  runState (init (io_fail_at 11)) (fresh_world panel16) =
  (ESP_FAIL,
   after [ TxParam 0x0200FE00 [0x20]; SleepFor 0; TxParam 0x02002400 [0x80]; SleepFor 0;
           TxParam 0x02005B00 [0x2E]; SleepFor 0; TxParam 0x0200FE00 [0x00]; SleepFor 0;
           TxParam 0x0200C200 [0x00]; SleepFor 10; TxParam 0x02003500 [0x00]; SleepFor 0;
           TxParam 0x02001100 []; SleepFor 120; TxParam 0x02002900 []; SleepFor 10;
           TxParam 0x02003600 [0x00]; SleepFor 0; TxParam 0x02003A00 [0x55]; SleepFor 0;
           TxParam 0x02008000 [0x10]; SleepFor 0; TxParam 0x02005100 [0xFF]; SleepFor 0 ]
     (fresh_world (set_brightness_field 0xFF panel16))).
Proof.
  rewrite (init_reaches_brightness (io_fail_at 11) (fresh_world panel16)).
  - reflexivity.
  - intros j Hj. do 8 (destruct j as [|j]; [reflexivity|]). cbn in Hj. lia.
  - discriminate.
  - reflexivity.
Defined.

(** X9. A rejected format command stops [init] there: its code is returned,
    neither the byte-swap option nor the brightness command is sent, and the
    device record, cached brightness included, is unchanged. *)
Theorem init_format_command_rejected io (w : World) :
  accepted io (ncalls w) 8 ->
  get_pixel_format (panel w) <> 0 ->
  io (ncalls w + 9)%nat <> ESP_OK ->
  runState (init io) w =
  (io (ncalls w + 9)%nat,
   after (power_up_events (panel w)
          ++ flat_map command_events default_init_cmds
          ++ madctl_events (panel w) ++ colmod_events (panel w)) w).
Proof.
  intros Hacc Hfmt H9. rewrite (run_init_after_bring_up io w Hacc).
  destruct (Z.eqb_spec (get_pixel_format (panel w)) 0) as [H0 | _]; [contradiction|].
  rewrite (proj2 (is_ok_false _) H9). reflexivity.
Qed.

Lemma init_format_command_rejected_witness :
  fst (runState (init (io_fail_at 9)) (fresh_world panel16)) = ESP_FAIL
  /\ panel (snd (runState (init (io_fail_at 9)) (fresh_world panel16))) = panel16
  /\ ncalls (snd (runState (init (io_fail_at 9)) (fresh_world panel16))) = 10%nat.
Proof.
  rewrite (init_format_command_rejected (io_fail_at 9) (fresh_world panel16)).
  - repeat split.
  - intros j Hj. do 8 (destruct j as [|j]; [reflexivity|]). cbn in Hj. lia.
  - discriminate.
  - discriminate.
Defined.

Lemma sleep_total_app t1 t2 : sleep_total (t1 ++ t2) = sleep_total t1 + sleep_total t2.
Proof.
  induction t1 as [|e t1 IH]; [reflexivity|].
  cbn [app sleep_total fold_right]. fold (sleep_total (t1 ++ t2)). fold (sleep_total t1).
  rewrite IH. destruct e; lia.
Qed.

Lemma sleep_total_power_up p :
  sleep_total (power_up_events p) = if en_gpio_num p =? GPIO_NUM_NC then 0 else 25.
Proof. unfold power_up_events. destruct (en_gpio_num p =? GPIO_NUM_NC); reflexivity. Qed.

Lemma sleep_total_byte_swap p : sleep_total (byte_swap_events p) = 0.
Proof. unfold byte_swap_events. destruct (bits_per_pixel p =? 16); reflexivity. Qed.

Lemma length_transactions_byte_swap p :
  length (transactions (byte_swap_events p)) = byte_swap_calls p.
Proof.
  unfold byte_swap_events, byte_swap_calls.
  destruct (bits_per_pixel p =? 16); reflexivity.
Qed.

Lemma byte_swap_calls_le p : (byte_swap_calls p <= 1)%nat.
Proof. unfold byte_swap_calls. destruct (bits_per_pixel p =? 16); lia. Qed.

(** X10. Whatever the transport does, [init] leaves every field of the
    device record as it was except the cached brightness, which is either
    untouched or 255, and it makes at most 12 transport transactions. *)
Theorem init_frame io (w : World) :
  (panel (snd (runState (init io) w)) = panel w
   \/ panel (snd (runState (init io) w)) = set_brightness_field 0xFF (panel w))
  /\ (ncalls w <= ncalls (snd (runState (init io) w)) <= ncalls w + 12)%nat.
Proof.
  destruct (accepted_or_first_failure io (ncalls w) 8) as [Hacc | (k & Hk & Hf)].
  - rewrite (run_init_after_bring_up io w Hacc).
    pose proof (byte_swap_calls_le (panel w)) as Hle.
    destruct (get_pixel_format (panel w) =? 0);
      [|destruct (is_ok (io (ncalls w + 9)%nat))];
      cbn [snd after panel ncalls with_panel];
      rewrite transactions_power_up_app, ?transactions_app, ?length_app,
        ?length_transactions_byte_swap;
      (split; [auto | cbn; lia]).
  - rewrite run_init, (send_commands_first_failure io default_init_cmds k).
    + rewrite ncalls_after_power_up, (first_failure_code io _ k Hf).
      cbn [snd after panel ncalls].
      rewrite transactions_power_up, length_transactions_command_events.
      split; [now left|].
      assert (Hlen : length (firstn (S k) default_init_cmds) = S k).
      { apply firstn_length_le. rewrite length_default_init_cmds. lia. }
      rewrite Hlen. cbn [length]. lia.
    + exact Hk.
    + now rewrite ncalls_after_power_up.
Qed.

(** X11. Once the bring-up commands are accepted, a call of [init] sleeps
    for 140 ms of settle delays in all (10 ms after set-display-mode, 120 ms
    after sleep-out, 10 ms after display-on), plus the 25 ms power-up wait
    when an enable pin is configured, however the call ends. *)
Theorem init_sleep_total io (w : World) :
  accepted io (ncalls w) 8 ->
  sleep_total (trace (snd (runState (init io) w))) =
  sleep_total (trace w) + 140
  + (if en_gpio_num (panel w) =? GPIO_NUM_NC then 0 else 25).
Proof.
  intros Hacc. rewrite (run_init_after_bring_up io w Hacc).
  destruct (get_pixel_format (panel w) =? 0);
    [|destruct (is_ok (io (ncalls w + 9)%nat))];
    cbn [snd after trace with_panel];
    rewrite !sleep_total_app, sleep_total_power_up, ?sleep_total_byte_swap;
    cbn; lia.
Qed.

Lemma init_sleep_total_witness :
  sleep_total (trace (snd (runState (init io_ok) (fresh_world panel16)))) = 140.
Proof.
  rewrite (init_sleep_total io_ok (fresh_world panel16)).
  - reflexivity.
  - intros j _. reflexivity.
Defined.

(** ** Orientation mutators *)

Lemma run_panel_swap_xy io s w :
  runState (panel_swap_xy io s) w =
  (io (ncalls w),
   after (madctl_events (set_swap_xy_field s (panel w)))
     (with_panel (set_swap_xy_field s) w)).
Proof.
  transitivity (runState (update_screen_orientation io)
                  (with_panel (set_swap_xy_field s) w)); [reflexivity|].
  now rewrite run_update_screen_orientation.
Qed.

Lemma run_mirror io mx my w :
  runState (mirror io mx my) w =
  (io (ncalls w),
   after (madctl_events (set_mirror_fields mx my (panel w)))
     (with_panel (set_mirror_fields mx my) w)).
Proof.
  transitivity (runState (update_screen_orientation io)
                  (with_panel (set_mirror_fields mx my) w)); [reflexivity|].
  now rewrite run_update_screen_orientation.
Qed.

Lemma madctl_events_table p :
  madctl_events p =
  [ TxParam 0x02003600
      [Z.lor (spec_rotation_code (swap_xy p) (mirror_x p) (mirror_y p))
             (spec_channel_order_bit (rgb_ele_order p))];
    SleepFor 0 ].
Proof.
  unfold madctl_events, orientation_param. rewrite get_scan_direction_table.
  destruct (rgb_ele_order p); reflexivity.
Qed.

(** X12. The orientation mutators store their flags before sending and never
    roll back: after [swap_xy s] followed by [mirror mx my] the record holds
    (s, mx, my) whatever the transport answered, two addressing-mode
    commands have gone out, the second carrying the code of (s, mx, my), and
    the value returned is the transport's answer to the second one only. *)
Theorem swap_then_mirror io (s mx my : bool) (w : World) :
  runState (panel_swap_xy io s ;; mirror io mx my) w =
  (io (S (ncalls w)),
   after [ TxParam 0x02003600
             [Z.lor (spec_rotation_code s (mirror_x (panel w)) (mirror_y (panel w)))
                    (spec_channel_order_bit (rgb_ele_order (panel w)))];
           SleepFor 0;
           TxParam 0x02003600
             [Z.lor (spec_rotation_code s mx my)
                    (spec_channel_order_bit (rgb_ele_order (panel w)))];
           SleepFor 0 ]
     (with_panel (fun p => set_mirror_fields mx my (set_swap_xy_field s p)) w)).
Proof.
  rewrite run_bind, run_panel_swap_xy. cbv iota beta.
  rewrite run_mirror, !madctl_events_table, with_panel_after, after_after.
  cbn [ncalls after with_panel panel set_mirror_fields set_swap_xy_field
       swap_xy mirror_x mirror_y rgb_ele_order transactions filter is_tx length app].
  replace (ncalls w + 1)%nat with (S (ncalls w)) by lia.
  reflexivity.
Qed.

(** ** Operations that do not change the device record *)

Lemma run_one_command io a prm w :
  runState (send_command_addr io a prm) w =
  (io (ncalls w), after (command_events (new_LCDCmd a prm)) w).
Proof. apply run_send_command. Qed.

Lemma run_reset w :
  runState reset w =
  (ESP_OK,
   after [ GpioSetLevel (reset_gpio_num (panel w)) HIGH; SleepFor 300;
           GpioSetLevel (reset_gpio_num (panel w)) LOW; SleepFor 300;
           GpioSetLevel (reset_gpio_num (panel w)) HIGH; SleepFor 300 ] w).
Proof.
  unfold after. cbn. unfold emit. cbn.
  rewrite <- !app_assoc, Nat.add_0_r. reflexivity.
Qed.

(** X13. Drawing, colour inversion, display on/off, sleep in/out, the
    hardware reset and the orientation update never modify the device
    record.  Inversion, on/off, sleep and the orientation update make exactly
    one transport transaction, the hardware reset none, a draw at least one
    and at most four. *)
Theorem read_only_operations io (w : World) :
  (forall xs ys xe ye d,
     panel (snd (runState (draw_bitmap io xs ys xe ye d) w)) = panel w
     /\ (ncalls w + 1 <= ncalls (snd (runState (draw_bitmap io xs ys xe ye d) w))
         <= ncalls w + 4)%nat)
  /\ (forall b, panel (snd (runState (invert_color io b) w)) = panel w
                /\ ncalls (snd (runState (invert_color io b) w)) = S (ncalls w))
  /\ (forall b, panel (snd (runState (disp_on_off io b) w)) = panel w
                /\ ncalls (snd (runState (disp_on_off io b) w)) = S (ncalls w))
  /\ (forall b, panel (snd (runState (sleep io b) w)) = panel w
                /\ ncalls (snd (runState (sleep io b) w)) = S (ncalls w))
  /\ (panel (snd (runState (update_screen_orientation io) w)) = panel w
      /\ ncalls (snd (runState (update_screen_orientation io) w)) = S (ncalls w))
  /\ (panel (snd (runState reset w)) = panel w
      /\ ncalls (snd (runState reset w)) = ncalls w).
Proof.
  split.
  { intros xs ys xe ye d.
    destruct (accepted_or_first_failure io (ncalls w) 3) as [Hacc | (k & Hk & Hf)].
    - rewrite (draw_bitmap_accepted io w xs ys xe ye d Hacc).
      cbn [snd after panel ncalls]. split; [reflexivity|].
      rewrite transactions_app, length_app, length_transactions_command_events.
      cbn. lia.
    - rewrite (draw_bitmap_first_failure io w xs ys xe ye d k Hk Hf).
      cbn [snd after panel ncalls]. split; [reflexivity|].
      rewrite length_transactions_command_events, firstn_length_le; [lia|].
      cbn. lia. }
  unfold invert_color, disp_on_off, sleep.
  repeat split; intros;
    rewrite ?run_one_command, ?run_update_screen_orientation, ?run_reset;
    try reflexivity; cbn; lia.
Qed.

(** X14. Each power toggle is one parameterless command followed by its
    settle delay, slept whether or not the transport accepted the command:
    display on 0x29 then 10 ms, display off 0x28 with no wait, sleep in 0x10
    then 5 ms, sleep out 0x11 then 120 ms, inversion on 0x21 and off 0x20
    with no wait; the value returned is the transport's. *)
Theorem power_toggles io (w : World) :
  runState (disp_on_off io true) w =
    (io (ncalls w), after [TxParam 0x02002900 []; SleepFor 10] w)
  /\ runState (disp_on_off io false) w =
    (io (ncalls w), after [TxParam 0x02002800 []; SleepFor 0] w)
  /\ runState (sleep io true) w =
    (io (ncalls w), after [TxParam 0x02001000 []; SleepFor 5] w)
  /\ runState (sleep io false) w =
    (io (ncalls w), after [TxParam 0x02001100 []; SleepFor 120] w)
  /\ runState (invert_color io true) w =
    (io (ncalls w), after [TxParam 0x02002100 []; SleepFor 0] w)
  /\ runState (invert_color io false) w =
    (io (ncalls w), after [TxParam 0x02002000 []; SleepFor 0] w).
Proof.
  unfold disp_on_off, sleep, invert_color.
  repeat split; rewrite run_one_command; reflexivity.
Qed.

(** X15. The hardware reset writes the reset pin high, low, high with 300 ms
    after each write, always returns [ESP_OK] and never uses the transport.
    It does not look at whether a reset pin is connected: with the pin left
    at [GPIO_NUM_NC] the three writes go to pin -1. *)
Theorem reset_pulses_unconditionally (w : World) :
  runState reset w =
    (ESP_OK,
     after [ GpioSetLevel (reset_gpio_num (panel w)) 1; SleepFor 300;
             GpioSetLevel (reset_gpio_num (panel w)) 0; SleepFor 300;
             GpioSetLevel (reset_gpio_num (panel w)) 1; SleepFor 300 ] w)
  /\ transactions (trace (snd (runState reset w))) = transactions (trace w)
  /\ sleep_total (trace (snd (runState reset w))) = sleep_total (trace w) + 900
  /\ (reset_gpio_num (panel w) = GPIO_NUM_NC ->
      trace (snd (runState reset w)) =
      trace w ++ [ GpioSetLevel (-1) 1; SleepFor 300; GpioSetLevel (-1) 0;
                   SleepFor 300; GpioSetLevel (-1) 1; SleepFor 300 ]).
Proof.
  rewrite run_reset. cbn [snd after trace].
  split; [reflexivity|].
  split; [rewrite transactions_app; cbn; apply app_nil_r|].
  split; [rewrite sleep_total_app; cbn; lia|].
  intros ->. reflexivity.
Qed.

Lemma reset_pulses_unconditionally_witness :
  trace (snd (runState reset (fresh_world default_panel))) =
  [ GpioSetLevel (-1) 1; SleepFor 300; GpioSetLevel (-1) 0;
    SleepFor 300; GpioSetLevel (-1) 1; SleepFor 300 ].
Proof.
  exact (proj2 (proj2 (proj2 (reset_pulses_unconditionally (fresh_world default_panel))))
           eq_refl).
Defined.

(** ** Drawing, continued *)

Lemma payload_size_set_gap p gx gy xs ys xe ye :
  payload_size (set_gap_fields gx gy p) xs ys xe ye = payload_size p xs ys xe ye.
Proof. now rewrite !payload_size_wraps. Qed.

Lemma payload_size_range p xs ys xe ye : 0 <= payload_size p xs ys xe ye < 2 ^ 29.
Proof.
  rewrite payload_size_wraps. unfold to_size_t.
  pose proof (Z.mod_pos_bound ((xe - xs) * (ye - ys) * bits_per_pixel p) (2 ^ 32)
                ltac:(lia)) as H.
  split.
  - apply Z.div_pos; lia.
  - apply Z.div_lt_upper_bound; [lia|]. change (8 * 2 ^ 29) with (2 ^ 32). lia.
Qed.

(** X16. The byte count of the pixel payload does not depend on the gaps:
    drawing the same rectangle after any [set_gap] hands the same payloads
    to the transport as drawing it without. *)
Theorem payload_independent_of_gap io (w : World) (gx gy xs ys xe ye d : Z) :
  payloads (trace (snd (runState (set_gap gx gy ;; draw_bitmap io xs ys xe ye d) w))) =
  payloads (trace (snd (runState (draw_bitmap io xs ys xe ye d) w))).
Proof.
  rewrite run_bind, run_set_gap. cbv iota beta.
  set (w' := with_panel (set_gap_fields (to_uint8 gx) (to_uint8 gy)) w).
  assert (Hn : ncalls w' = ncalls w) by reflexivity.
  assert (Ht : trace w' = trace w) by reflexivity.
  destruct (accepted_or_first_failure io (ncalls w) 3) as [Hacc | (k & Hk & Hf)].
  - rewrite (draw_bitmap_accepted io w xs ys xe ye d Hacc).
    rewrite (draw_bitmap_accepted io w' xs ys xe ye d) by (rewrite Hn; exact Hacc).
    cbn [snd after trace]. unfold payloads.
    rewrite Ht, !filter_app, !payloads_command_events.
    unfold w'. cbn [panel with_panel]. rewrite payload_size_set_gap. reflexivity.
  - rewrite (draw_bitmap_first_failure io w xs ys xe ye d k Hk Hf).
    rewrite (draw_bitmap_first_failure io w' xs ys xe ye d k Hk)
      by (rewrite Hn; exact Hf).
    cbn [snd after trace]. unfold payloads.
    rewrite Ht, !filter_app, !payloads_command_events. reflexivity.
Qed.

(** X17. The byte count handed to the transport is never negative and stays
    below 2^29.  When the pixel bits of the rectangle fit 32 bits the count
    is their number divided by 8 rounded down, so the bits of a last,
    incomplete byte are not counted: one pixel at 3 bits per pixel is
    announced as 0 bytes. *)
Theorem payload_rounds_down (p : RM690B0Panel) (xs ys xe ye : Z) :
  0 <= payload_size p xs ys xe ye < 2 ^ 29
  /\ (0 <= (xe - xs) * (ye - ys) * bits_per_pixel p < 2 ^ 32 ->
      8 * payload_size p xs ys xe ye <= (xe - xs) * (ye - ys) * bits_per_pixel p
        < 8 * payload_size p xs ys xe ye + 8).
Proof.
  split; [apply payload_size_range|].
  intros H. rewrite payload_size_wraps. unfold to_size_t.
  rewrite Z.mod_small by exact H.
  pose proof (Z.div_mod ((xe - xs) * (ye - ys) * bits_per_pixel p) 8 ltac:(lia)).
  pose proof (Z.mod_pos_bound ((xe - xs) * (ye - ys) * bits_per_pixel p) 8 ltac:(lia)).
  lia.
Qed.

Lemma payload_rounds_down_witness :
  8 * payload_size panel3 0 0 1 1 <= (1 - 0) * (1 - 0) * 3
    < 8 * payload_size panel3 0 0 1 1 + 8.
Proof.
  apply (proj2 (payload_rounds_down panel3 0 0 1 1)).
  cbn. lia.
Defined.

(** X18. An empty rectangle is not short-circuited: with [x_end = x_start]
    (or [y_end = y_start]) and an accepting transport the three window
    commands are still sent, the end coordinate one below the start, and the
    pixel transport is then called with a byte count of 0. *)
Theorem draw_bitmap_empty_rectangle io (w : World) (xs ys xe ye d : Z) :
  xe = xs \/ ye = ys ->
  accepted io (ncalls w) 3 ->
  runState (draw_bitmap io xs ys xe ye d) w =
  (io (ncalls w + 3)%nat,
   after (spec_window_events (x_gap (panel w)) (y_gap (panel w)) xs ys xe ye
          ++ [TxColor 0x32002C00 d 0]) w).
Proof.
  intros Hempty Hacc. rewrite (draw_bitmap_accepted io w xs ys xe ye d Hacc).
  rewrite draw_window_events, payload_size_wraps.
  replace ((xe - xs) * (ye - ys) * bits_per_pixel (panel w)) with 0
    by (destruct Hempty; subst; ring).
  reflexivity.
Qed.

Lemma draw_bitmap_empty_rectangle_witness :
  trace (snd (runState (draw_bitmap io_ok 5 0 5 50 0) (fresh_world panel16))) =
  [ TxParam 0x02002A00 [0; 7; 0; 6]; SleepFor 0;
    TxParam 0x02002B00 [0; 3; 0; 52]; SleepFor 0;
    TxParam 0x02002C00 []; SleepFor 0;
    TxColor 0x32002C00 0 0 ].
Proof.
  rewrite (draw_bitmap_empty_rectangle io_ok (fresh_world panel16) 5 0 5 50 0).
  - reflexivity.
  - left. reflexivity.
  - intros j _. reflexivity.
Defined.

(** ** Gap, continued *)

(** X19. Of two successive [set_gap] calls only the last counts; gaps within
    0..255 are stored as given, and arguments that differ by a multiple of
    256 store the same gaps; no other field of the device record changes. *)
Theorem set_gap_last_wins (gx gy gx' gy' : Z) (w : World) :
  snd (runState (set_gap gx gy ;; set_gap gx' gy') w) =
    snd (runState (set_gap gx' gy') w)
  /\ (0 <= gx' < 256 -> 0 <= gy' < 256 ->
      x_gap (panel (snd (runState (set_gap gx' gy') w))) = gx'
      /\ y_gap (panel (snd (runState (set_gap gx' gy') w))) = gy')
  /\ (forall i j, runState (set_gap (gx + 256 * i) (gy + 256 * j)) w =
                  runState (set_gap gx gy) w)
  /\ set_gap_fields (x_gap (panel w)) (y_gap (panel w))
       (panel (snd (runState (set_gap gx gy) w))) = panel w.
Proof.
  split; [reflexivity|].
  split.
  { intros Hx Hy. rewrite run_set_gap. cbn [snd with_panel panel x_gap y_gap set_gap_fields].
    unfold to_uint8. change (2 ^ 8) with 256. now rewrite !Z.mod_small. }
  split.
  { intros i j. rewrite !run_set_gap. unfold to_uint8. change (2 ^ 8) with 256.
    rewrite (Z.mul_comm 256 i), (Z.mul_comm 256 j), !Z_mod_plus_full. reflexivity. }
  destruct w as [[b rg en x y bpp sw mx my ord gray] t n]. reflexivity.
Qed.

Lemma set_gap_last_wins_witness :
  x_gap (panel (snd (runState (set_gap 2 3) (fresh_world default_panel)))) = 2
  /\ y_gap (panel (snd (runState (set_gap 2 3) (fresh_world default_panel)))) = 3.
Proof.
  apply (proj1 (proj2 (set_gap_last_wins 0 0 2 3 (fresh_world default_panel)))); lia.
Defined.

(** ** Registration and teardown *)

Lemma run_bind_pins {A B} (m : G A) (f : A -> G B) s :
  runState (x <- m ;; f x) s =
  (let (a, s') := runState m s in runState (f a) s').
Proof. reflexivity. Qed.

Lemma pins_after_nil s : pins_after [] s = s.
Proof.
  destruct s as [l n]. unfold pins_after. cbn.
  now rewrite app_nil_r, Nat.add_0_r.
Qed.

Lemma pins_after_after cs1 cs2 s :
  pins_after cs2 (pins_after cs1 s) = pins_after (cs1 ++ cs2) s.
Proof.
  unfold pins_after. cbn. rewrite <- app_assoc, length_app. f_equal. lia.
Qed.

Lemma run_gpio_call gpio c s :
  runState (gpio_call gpio c) s = (gpio (gpio_ncalls s), pins_after [c] s).
Proof.
  unfold pins_after. cbn.
  replace (gpio_ncalls s + 1)%nat with (S (gpio_ncalls s)) by lia. reflexivity.
Qed.

Lemma run_reset_pin gpio pin s :
  runState (reset_pin gpio pin) s =
  if pin =? GPIO_NUM_NC then (ESP_OK, s)
  else (gpio (gpio_ncalls s), pins_after [GpioResetPin pin] s).
Proof.
  unfold reset_pin, gpio_reset_pin.
  destruct (pin =? GPIO_NUM_NC); [reflexivity | apply run_gpio_call].
Qed.

Lemma run_reset_all_pins gpio p s :
  runState (reset_all_pins gpio p) s = (tt, pins_after (release_calls p) s).
Proof.
  unfold reset_all_pins, release_calls.
  rewrite run_bind_pins, run_reset_pin.
  destruct (reset_gpio_num p =? GPIO_NUM_NC); cbv iota beta;
    rewrite run_bind_pins, run_reset_pin;
    destruct (en_gpio_num p =? GPIO_NUM_NC); cbv iota beta;
    rewrite ?pins_after_after, ?pins_after_nil; reflexivity.
Qed.

Lemma run_init_out_pin gpio p pin s :
  runState (init_out_pin gpio p pin) s =
  if pin =? GPIO_NUM_NC then (ESP_OK, s)
  else if is_ok (gpio (gpio_ncalls s))
       then (gpio (gpio_ncalls s), pins_after [GpioConfig (Z.shiftl 1 pin)] s)
       else (gpio (gpio_ncalls s),
             pins_after ([GpioConfig (Z.shiftl 1 pin)] ++ release_calls p) s).
Proof.
  unfold init_out_pin, gpio_config.
  destruct (pin =? GPIO_NUM_NC); [reflexivity|].
  rewrite run_bind_pins, run_gpio_call. cbv iota beta.
  destruct (is_ok (gpio (gpio_ncalls s))); cbn [negb]; rewrite run_bind_pins.
  - reflexivity.
  - rewrite run_reset_all_pins, pins_after_after. reflexivity.
Qed.

(** X20. Teardown cannot fail: [del] returns [ESP_OK] whatever
    [gpio_reset_pin] answers.  It releases each connected pin once, the reset
    pin before the enable pin, and makes no GPIO call for a pin left at
    [GPIO_NUM_NC]. *)
Theorem del_always_succeeds gpio (p : RM690B0Panel) (s : Pins) :
  runState (del gpio p) s = (ESP_OK, pins_after (release_calls p) s)
  /\ release_calls p =
       match reset_gpio_num p =? GPIO_NUM_NC, en_gpio_num p =? GPIO_NUM_NC with
       | true, true => []
       | true, false => [GpioResetPin (en_gpio_num p)]
       | false, true => [GpioResetPin (reset_gpio_num p)]
       | false, false => [GpioResetPin (reset_gpio_num p); GpioResetPin (en_gpio_num p)]
       end.
Proof.
  split.
  - unfold del. rewrite run_bind_pins, run_reset_all_pins. reflexivity.
  - unfold release_calls.
    destruct (reset_gpio_num p =? GPIO_NUM_NC), (en_gpio_num p =? GPIO_NUM_NC);
      reflexivity.
Qed.

(** X21. Registration refuses null arguments before doing anything: with a
    null transport handle, a null configuration or a null result pointer it
    returns [ESP_ERR_INVALID_ARG], makes no GPIO call and hands out no
    panel. *)
Theorem new_panel_null_arguments gpio (io_present : bool)
    (c : option dev.esp_lcd_panel_dev_config_t) (ret_present : bool) (s : Pins) :
  io_present = false \/ c = None \/ ret_present = false ->
  runState (esp_lcd_new_panel_rm690b0 gpio io_present c ret_present) s =
  ((ESP_ERR_INVALID_ARG, None), s).
Proof.
  intros H. unfold esp_lcd_new_panel_rm690b0.
  destruct io_present; [|reflexivity].
  destruct c as [c|]; [|reflexivity].
  destruct ret_present; [|reflexivity].
  destruct H as [H | [H | H]]; discriminate.
Qed.

Lemma new_panel_null_arguments_witness :
  runState (esp_lcd_new_panel_rm690b0 io_ok true None true) no_pins =
  ((ESP_ERR_INVALID_ARG, None), no_pins).
Proof.
  apply new_panel_null_arguments. right. left. reflexivity.
Defined.

Lemma length_config_calls p : (length (config_calls p) <= 2)%nat.
Proof.
  unfold config_calls.
  destruct (reset_gpio_num p =? GPIO_NUM_NC), (en_gpio_num p =? GPIO_NUM_NC);
    cbn; lia.
Qed.

Ltac step_ok :=
  cbv iota beta; change (is_ok ESP_OK) with true; cbv iota beta.

Lemma run_new_panel gpio c s :
  runState (esp_lcd_new_panel_rm690b0 gpio true (Some c) true) s =
  (let (r1, s1) := runState (init_out_pin gpio (populate c)
                               (reset_gpio_num (populate c))) s in
   if is_ok r1
   then let (r2, s2) := runState (init_out_pin gpio (populate c)
                                    (en_gpio_num (populate c))) s1 in
        if is_ok r2 then ((ESP_OK, Some (populate c)), s2) else ((r2, None), s2)
   else ((r1, None), s1)).
Proof.
  unfold esp_lcd_new_panel_rm690b0. cbn [negb]. cbv zeta.
  rewrite run_bind_pins.
  destruct (runState (init_out_pin gpio (populate c) (reset_gpio_num (populate c))) s)
    as [r1 s1].
  destruct (is_ok r1); [|reflexivity].
  rewrite run_bind_pins.
  destruct (runState (init_out_pin gpio (populate c) (en_gpio_num (populate c))) s1)
    as [r2 s2].
  destruct (is_ok r2); reflexivity.
Qed.

(** X22. With non-null arguments and every pin configuration accepted,
    registration returns [ESP_OK] and the populated record, having called
    [gpio_config] once per connected pin, reset pin first, and nothing else.
    No pixel format is checked at this point.  In the record a negative reset
    pin number has become [GPIO_NUM_NC], the depth is the configured one
    reduced to 8 bits, and brightness, gaps and orientation flags are at
    their defaults. *)
Theorem new_panel_success gpio (c : dev.esp_lcd_panel_dev_config_t) (s : Pins) :
  accepted gpio (gpio_ncalls s) (length (config_calls (populate c))) ->
  runState (esp_lcd_new_panel_rm690b0 gpio true (Some c) true) s =
    ((ESP_OK, Some (populate c)), pins_after (config_calls (populate c)) s)
  /\ (dev.reset_gpio_num c < 0 -> reset_gpio_num (populate c) = GPIO_NUM_NC)
  /\ bits_per_pixel (populate c) = dev.bits_per_pixel c mod 256
  /\ brightness (populate c) = 0
  /\ orientation_param (populate c) = spec_channel_order_bit (dev.rgb_ele_order c)
  /\ (x_gap (populate c), y_gap (populate c)) = (0, 0).
Proof.
  intros Hacc.
  split.
  - rewrite run_new_panel, run_init_out_pin. revert Hacc. unfold config_calls.
    destruct (reset_gpio_num (populate c) =? GPIO_NUM_NC) eqn:Er;
      destruct (en_gpio_num (populate c) =? GPIO_NUM_NC) eqn:Ee;
      cbn [app length]; intros Hacc.
    + step_ok. rewrite run_init_out_pin, Ee. step_ok.
      now rewrite pins_after_nil.
    + step_ok. rewrite run_init_out_pin, Ee.
      pose proof (Hacc 0%nat ltac:(lia)) as H0. rewrite Nat.add_0_r in H0.
      rewrite H0. step_ok. reflexivity.
    + pose proof (Hacc 0%nat ltac:(lia)) as H0. rewrite Nat.add_0_r in H0.
      rewrite H0. step_ok. rewrite run_init_out_pin, Ee. step_ok. reflexivity.
    + pose proof (Hacc 0%nat ltac:(lia)) as H0. rewrite Nat.add_0_r in H0.
      pose proof (Hacc 1%nat ltac:(lia)) as H1.
      rewrite H0. step_ok. rewrite run_init_out_pin, Ee.
      cbn [gpio_ncalls pins_after length]. rewrite H1. step_ok.
      rewrite pins_after_after. reflexivity.
  - split.
    { intros Hneg. cbn [populate reset_gpio_num].
      destruct (Z.leb_spec 0 (dev.reset_gpio_num c)); [lia | reflexivity]. }
    split; [reflexivity|]. split; [reflexivity|].
    split; [|reflexivity].
    unfold orientation_param. cbn. destruct (dev.rgb_ele_order c); reflexivity.
Qed.

Lemma new_panel_success_witness :
  runState (esp_lcd_new_panel_rm690b0 io_ok true (Some config16) true) no_pins =
  ((ESP_OK, Some (populate config16)),
   pins_after [GpioConfig 16; GpioConfig 32] no_pins).
Proof.
  apply (proj1 (new_panel_success io_ok config16 no_pins
                  ltac:(intros j _; reflexivity))).
Defined.

(** X23. When a pin configuration is rejected, registration gives up with
    the code of that rejection and no panel, after releasing every connected
    pin (reset pin, then enable pin) whether or not it had been configured;
    the answers to the release calls are not looked at.  A rejected reset-pin
    configuration thus leaves the enable pin unconfigured but released. *)
Theorem new_panel_pin_failure_releases_all gpio
    (c : dev.esp_lcd_panel_dev_config_t) (s : Pins) (k : nat) :
  (k < length (config_calls (populate c)))%nat ->
  first_failure gpio (gpio_ncalls s) k ->
  runState (esp_lcd_new_panel_rm690b0 gpio true (Some c) true) s =
  ((gpio (gpio_ncalls s + k)%nat, None),
   pins_after (firstn (S k) (config_calls (populate c))
               ++ release_calls (populate c)) s).
Proof.
  intros Hk [Hb Hat]. apply is_ok_false in Hat.
  rewrite run_new_panel, run_init_out_pin. revert Hk. unfold config_calls.
  destruct (reset_gpio_num (populate c) =? GPIO_NUM_NC) eqn:Er;
    destruct (en_gpio_num (populate c) =? GPIO_NUM_NC) eqn:Ee;
    cbn [app length]; intros Hk.
  - lia.
  - assert (k = 0%nat) by lia. subst k. rewrite Nat.add_0_r in *.
    step_ok. rewrite run_init_out_pin, Ee. repeat (rewrite Hat; cbv iota beta).
    reflexivity.
  - assert (k = 0%nat) by lia. subst k. rewrite Nat.add_0_r in *.
    repeat (rewrite Hat; cbv iota beta). reflexivity.
  - destruct k as [|[|k]]; [| |lia].
    + rewrite Nat.add_0_r in *. repeat (rewrite Hat; cbv iota beta). reflexivity.
    + pose proof (Hb 0%nat ltac:(lia)) as H0. rewrite Nat.add_0_r in H0.
      rewrite H0. step_ok. rewrite run_init_out_pin, Ee.
      cbn [gpio_ncalls pins_after length]. repeat (rewrite Hat; cbv iota beta).
      rewrite pins_after_after. reflexivity.
Qed.

Lemma new_panel_pin_failure_releases_all_witness :
  runState (esp_lcd_new_panel_rm690b0 (io_fail_at 0) true (Some config16) true) no_pins =
  ((ESP_FAIL, None),
   pins_after [GpioConfig 16; GpioResetPin 4; GpioResetPin 5] no_pins).
Proof.
  apply (new_panel_pin_failure_releases_all (io_fail_at 0) config16 no_pins 0).
  - cbn. lia.
  - split; [intros j Hj; lia | discriminate].
Defined.
